(** * The chain-event reporter of [wrapper/vertex_wrapper.py]

    A shallow embedding of the classes [Color], [OutputFormatter] and
    [AllChainDetails], and the properties of the event handlers.

    Python values are modelled by [PyVal]; a handler is a computation in the
    monad [M], which threads the handler object [self], records what is
    written to the console and where [breakpoint()] is entered, and either
    returns or raises. *)

From Stdlib Require Import String Ascii List Bool Arith ZArith Lia DecimalString.
Import ListNotations.
Local Open Scope list_scope.
Local Open Scope string_scope.

Set Implicit Arguments.

(** ** Characters and strings *)

Definition chr (n : nat) : string := String (ascii_of_nat n) EmptyString.

(** The escapes the source writes inside its literals. *)
Definition ESC : string := chr 27.     (* "\033" and "\x1B" *)
Definition nl : string := chr 10.      (* "\n" *)
Definition squote : ascii := ascii_of_nat 39.
Definition dquote : ascii := ascii_of_nat 34.
Definition backslash : ascii := ascii_of_nat 92.

Fixpoint chars (s : string) : list ascii :=
  match s with
  | EmptyString => []
  | String c r => c :: chars r
  end.

Definition has_char (c : ascii) (s : string) : bool :=
  existsb (Ascii.eqb c) (chars s).

(** [needle in hay] on Python strings. *)
Fixpoint contains (needle hay : string) : bool :=
  String.prefix needle hay
  || match hay with
     | EmptyString => false
     | String _ r => contains needle r
     end.

(** [len(x)] printed inside an f-string. *)
Definition str_of_nat (n : nat) : string := NilZero.string_of_uint (Nat.to_uint n).
Definition str_of_Z (z : Z) : string := NilZero.string_of_int (Z.to_int z).

(** ** Python values

    The payloads are typed [Any] in the source.  [VObj] stands for an object
    of a class the source does not look into (a UUID, an exception, ...): it
    is given by the results of its [__str__] and [__repr__]. *)

#[local] Unset Elimination Schemes.
Inductive PyVal : Type :=
| VNone
| VBool (b : bool)
| VInt (z : Z)
| VStr (s : string)
| VList (l : list PyVal)
| VDict (d : list (string * PyVal))
| VObj (str_ repr_ : string).
#[local] Set Elimination Schemes.

(** A [Dict[str, Any]]: bindings in insertion order. *)
Definition dict := list (string * PyVal).

Fixpoint dict_get (k : string) (d : dict) : option PyVal :=
  match d with
  | [] => None
  | (k', v) :: r => if String.eqb k k' then Some v else dict_get k r
  end.

Definition keys (d : dict) : list string := map fst d.

(** [k in d.keys()] *)
Definition dict_has (k : string) (d : dict) : bool :=
  existsb (String.eqb k) (keys d).

(** *** [repr] and [str]

    Strings are sequences of code points below 256.  [repr] of a string
    picks the quote as CPython does and escapes what is not printable. *)

Definition hex_digit (n : nat) : string :=
  String.substring n 1 "0123456789abcdef".

Definition printable (n : nat) : bool :=
  ((32 <=? n) && (n <=? 126) || (161 <=? n) && (n <=? 255) && negb (n =? 173))%nat.

Definition escape_char (q c : ascii) : string :=
  let n := nat_of_ascii c in
  if Ascii.eqb c backslash then String backslash (String backslash EmptyString)
  else if Ascii.eqb c q then String backslash (String q EmptyString)
  else if Nat.eqb n 10 then String backslash "n"
  else if Nat.eqb n 13 then String backslash "r"
  else if Nat.eqb n 9 then String backslash "t"
  else if printable n then String c EmptyString
  else String backslash "x" ++ hex_digit (n / 16) ++ hex_digit (n mod 16).

Definition repr_str (s : string) : string :=
  let q := if has_char squote s && negb (has_char dquote s) then dquote else squote in
  String q EmptyString
  ++ String.concat EmptyString (map (escape_char q) (chars s))
  ++ String q EmptyString.

Fixpoint py_repr (v : PyVal) : string :=
  match v with
  | VNone => "None"
  | VBool true => "True"
  | VBool false => "False"
  | VInt z => str_of_Z z
  | VStr s => repr_str s
  | VList l => "[" ++ String.concat ", " (map py_repr l) ++ "]"
  | VDict d =>
      "{" ++ String.concat ", "
               (map (fun kv => let '(k, x) := kv in repr_str k ++ ": " ++ py_repr x) d)
          ++ "}"
  | VObj _ r => r
  end.

(** What [f"{v}"] and [print(v)] write. *)
Definition py_str (v : PyVal) : string :=
  match v with
  | VStr s => s
  | VObj s _ => s
  | _ => py_repr v
  end.

Definition str_list (l : list string) : PyVal := VList (map VStr l).

(** [Optional[...]] arguments *)
Definition opt_str (o : option string) : PyVal :=
  match o with None => VNone | Some s => VStr s end.
Definition opt_str_list (o : option (list string)) : PyVal :=
  match o with None => VNone | Some l => str_list l end.
Definition opt_dict (o : option dict) : PyVal :=
  match o with None => VNone | Some d => VDict d end.

(** [bool(x)] for the [Optional[bool]] flag. *)
Definition truthy (o : option bool) : bool :=
  match o with Some true => true | _ => false end.

(** [str.splitlines()]: the line boundaries among the code points below 256;
    a carriage return followed by a line feed is one boundary. *)
Definition is_linebreak (c : ascii) : bool :=
  existsb (Nat.eqb (nat_of_ascii c)) [10; 11; 12; 13; 28; 29; 30; 133].

Fixpoint splitlines_from (cur s : string) : list string :=
  match s with
  | EmptyString => match cur with EmptyString => [] | _ => [cur] end
  | String c r =>
      if is_linebreak c then
        cur :: match r with
               | EmptyString => []
               | String c' r' =>
                   if Nat.eqb (nat_of_ascii c) 13 && Nat.eqb (nat_of_ascii c') 10
                   then splitlines_from EmptyString r'
                   else splitlines_from EmptyString r
               end
      else splitlines_from (cur ++ String c EmptyString) r
  end.

Definition splitlines (s : string) : list string := splitlines_from EmptyString s.

(** [".".join(v)]: [v] has to be an iterable of strings. *)
Fixpoint all_strs (l : list PyVal) : option (list string) :=
  match l with
  | [] => Some []
  | VStr s :: r => option_map (cons s) (all_strs r)
  | _ => None
  end.

Definition iter_strs (v : PyVal) : option (list string) :=
  match v with
  | VStr s => Some (map (fun c => String c EmptyString) (chars s))
  | VList l => all_strs l
  | VDict d => Some (keys d)
  | _ => None
  end.

(** ** class Color *)

Module Color.
Definition PURPLE : string := ESC ++ "[95m".
Definition CYAN : string := ESC ++ "[96m".
Definition DARKCYAN : string := ESC ++ "[36m".
Definition BLUE : string := ESC ++ "[94m".
Definition GREEN : string := ESC ++ "[92m".
Definition YELLOW : string := ESC ++ "[93m".
Definition RED : string := ESC ++ "[91m".
Definition BOLD : string := ESC ++ "[1m".
Definition UNDERLINE : string := ESC ++ "[4m".
Definition ITALICS : string := ESC ++ "[3m".
Definition END : string := ESC ++ "[0m" ++ ESC ++ "[0m".
End Color.

(** ** What a handler does to the outside

    [Print text end_] is the built-in [print(text, end=end_)], [Cpprint text]
    is [prettyprinter.cpprint(text)], [Breakpoint] is [breakpoint()]: the
    process is suspended for the operator, who then lets it continue. *)

Inductive effect : Type :=
| Print (text end_ : string)
| Cpprint (text : string)
| Breakpoint.

Definition print (text : string) : list effect := [Print text nl].

(** ** class OutputFormatter *)

Module OutputFormatter.
Import Color.

Definition heading (text : string) : list effect :=
    print (BOLD ++ text ++ END).

Definition key_info (text : string) : list effect :=
    print (BOLD ++ DARKCYAN ++ text ++ END).

Definition key_info_labeled (label contents : string) (contents_newlined : bool)
    : list effect :=
    [Print (BOLD ++ DARKCYAN ++ label ++ ": " ++ END ++ DARKCYAN) EmptyString;
     Cpprint (if contents_newlined then py_str (str_list (splitlines contents))
              else contents);
     Print END EmptyString].

Definition debug_info (text : string) : list effect :=
    print (BLUE ++ text ++ END).

Definition debug_info_labeled (label contents : string) (contents_newlined : bool)
    : list effect :=
    [Print (BOLD ++ BLUE ++ label ++ ": " ++ END ++ BLUE) EmptyString;
     Cpprint (if contents_newlined then py_str (str_list (splitlines contents))
              else contents);
     Print END EmptyString].

Definition llm_call (text : string) : list effect :=
    print (ITALICS ++ text ++ END).

Definition llm_output (text : string) : list effect :=
    print (UNDERLINE ++ text ++ END).

Definition tool_call (text : string) : list effect :=
    print (ITALICS ++ PURPLE ++ text ++ END).

Definition tool_output (text : string) : list effect :=
    print (UNDERLINE ++ PURPLE ++ text ++ END).

Definition debug_error (text : string) : list effect :=
    print (BOLD ++ RED ++ text ++ END).
End OutputFormatter.

(** A class used as output sink is the table of its attributes.  The
    formatting functions come in two signatures: [(text)] and
    [(label, contents, contents_newlined=False)]. *)

Inductive method : Type :=
| Plain (f : string -> list effect)
| Labeled (f : string -> string -> bool -> list effect).

Definition Formatter := list (string * method).

Fixpoint class_get (name : string) (cls : Formatter) : option method :=
  match cls with
  | [] => None
  | (n, m) :: r => if String.eqb name n then Some m else class_get name r
  end.

Definition OutputFormatter_class : Formatter :=
  [ ("heading", Plain OutputFormatter.heading);
    ("key_info", Plain OutputFormatter.key_info);
    ("key_info_labeled", Labeled OutputFormatter.key_info_labeled);
    ("debug_info", Plain OutputFormatter.debug_info);
    ("debug_info_labeled", Labeled OutputFormatter.debug_info_labeled);
    ("llm_call", Plain OutputFormatter.llm_call);
    ("llm_output", Plain OutputFormatter.llm_output);
    ("tool_call", Plain OutputFormatter.tool_call);
    ("tool_output", Plain OutputFormatter.tool_output);
    ("debug_error", Plain OutputFormatter.debug_error) ].

(** ** class AllChainDetails *)

Record AllChainDetails : Type := {
  debug_mode : option bool;
  out : Formatter
}.

(** [__init__(self, debug_mode=False, out=OutputFormatter)] *)
Definition __init__ (debug_mode : option bool) (out : Formatter) : AllChainDetails :=
  {| debug_mode := debug_mode; out := out |}.

(** ** The handler monad *)

Inductive exn : Type :=
| AttributeError (name : string)
| KeyError (key : string)
| IndexError
| UnboundLocalError (name : string)
| TypeError.

(** The handler object after the call, what was written, and how the call
    ended. *)
Record result (A : Type) : Type := {
  self_after : AllChainDetails;
  written : list effect;
  outcome : exn + A
}.

Definition M (A : Type) : Type := AllChainDetails -> result A.

Definition ret {A} (a : A) : M A :=
  fun self => {| self_after := self; written := []; outcome := inr a |}.

Definition raise {A} (e : exn) : M A :=
  fun self => {| self_after := self; written := []; outcome := inl e |}.

Definition bind {A B} (m : M A) (k : A -> M B) : M B :=
  fun self =>
    let r := m self in
    match outcome r with
    | inl e => {| self_after := self_after r; written := written r; outcome := inl e |}
    | inr a =>
        let r' := k a (self_after r) in
        {| self_after := self_after r';
           written := (written r ++ written r')%list;
           outcome := outcome r' |}
    end.

Declare Scope handler_scope.
Delimit Scope handler_scope with handler.
Notation "x <- m ;; k" := (bind m (fun x => k))
  (at level 61, m at next level, right associativity) : handler_scope.
Notation "m ;; k" := (bind m (fun _ => k))
  (at level 61, right associativity) : handler_scope.
Local Open Scope handler_scope.

Definition emit (es : list effect) : M unit :=
  fun self => {| self_after := self; written := es; outcome := inr tt |}.

Definition breakpoint : M unit := emit [Breakpoint].

(** [self.debug_mode] and [self.out.name] *)
Definition get_debug_mode : M (option bool) :=
  fun self => {| self_after := self; written := []; outcome := inr (debug_mode self) |}.

Definition getattr_out (name : string) : M method :=
  fun self =>
    {| self_after := self; written := [];
       outcome := match class_get name (out self) with
                  | Some m => inr m
                  | None => inl (AttributeError name)
                  end |}.

(** [self.debug_mode = v] and [self.out = v], the two assignments of the
    class; both stand in [__init__]. *)
Definition setattr_debug_mode (v : option bool) : M unit :=
  fun self =>
    {| self_after := {| debug_mode := v; out := out self |};
       written := []; outcome := inr tt |}.

Definition setattr_out (v : Formatter) : M unit :=
  fun self =>
    {| self_after := {| debug_mode := debug_mode self; out := v |};
       written := []; outcome := inr tt |}.

(** The body of [__init__], statement by statement, run on an object whose
    fields hold anything. *)
Definition init (debug_mode : option bool) (out : Formatter) : M unit :=
  setattr_debug_mode debug_mode ;;
  setattr_out out.

(** A function object has no attributes of its own to offer. *)
Definition getattr_method (m : method) (name : string) : M method :=
  raise (AttributeError name).

Definition call_plain (m : method) (text : string) : M unit :=
  match m with
  | Plain f => emit (f text)
  | Labeled _ => raise TypeError
  end.

Definition call_labeled (m : method) (label contents : string) (newlined : bool)
  : M unit :=
  match m with
  | Labeled f => emit (f label contents newlined)
  | Plain _ => raise TypeError
  end.

(** [self.out.name(text)] and [self.out.name(label, contents, ...)]: the
    attribute is looked up first, then the arguments are evaluated. *)
Definition out_plain (name : string) (text : M string) : M unit :=
  m <- getattr_out name ;; t <- text ;; call_plain m t.

Definition out_labeled (name label : string) (contents : M string) (newlined : bool)
  : M unit :=
  m <- getattr_out name ;; c <- contents ;; call_labeled m label c newlined.

(** [d[k]] inside an f-string *)
Definition getitem (d : dict) (k : string) : M PyVal :=
  match dict_get k d with
  | Some v => ret v
  | None => raise (KeyError k)
  end.

Definition fmt_item (d : dict) (k : string) : M string :=
  v <- getitem d k ;; ret (py_str v).

(** [l[0]] *)
Definition first {A} (l : list A) : M A :=
  match l with
  | x :: _ => ret x
  | [] => raise IndexError
  end.

(** [sep.join(v)] *)
Definition join (sep : string) (v : PyVal) : M string :=
  match iter_strs v with
  | Some l => ret (String.concat sep l)
  | None => raise TypeError
  end.

Fixpoint for_each {A} (l : list A) (body : A -> M unit) : M unit :=
  match l with
  | [] => ret tt
  | x :: r => body x ;; for_each r body
  end.

(** [enumerate(l)] *)
Definition enumerate {A} (l : list A) : list (nat * A) :=
  combine (seq 0 (length l)) l.

(** [if self.debug_mode: body] *)
Definition if_debug (body : M unit) : M unit :=
  dm <- get_debug_mode ;; if truthy dm then body else ret tt.

(** ** The payload classes of the framework

    Of [LLMResult], [AgentAction], [AgentFinish] and [Document] the handlers
    read the attributes below; [*_str] is what [f"{obj}"] gives.  An action
    without the attribute [log] has [None] there. *)

Record Generation : Type := { text : string }.
Record LLMResult : Type := {
  generations : list (list Generation);
  response_str : string
}.
Record AgentAction : Type := { action_log : option string; action_str : string }.
Record AgentFinish : Type := { finish_log : option string; finish_str : string }.
Record Document : Type := { page_content : string; metadata : dict }.

(** ** The handlers *)

Definition on_text (text : string) (color : option string) (end_ : string)
  (kwargs : dict) : M unit :=
  if_debug (
    out_plain "heading" (ret (nl ++ nl ++ "> Preparing text.")) ;;
    out_labeled "debug_info_labeled" "Chain ID" (fmt_item kwargs "run_id") false ;;
    out_labeled "debug_info_labeled" "Parent chain ID"
      (fmt_item kwargs "parent_run_id") false ;;
    out_labeled "debug_info_labeled" "Arguments" (ret (py_str (VDict kwargs))) false ;;
    emit (print text)).

Definition on_llm_start (serialized : dict) (prompts : list string) (kwargs : dict)
  : M unit :=
  out_plain "heading" (ret (nl ++ nl ++ "> Sending text to the LLM.")) ;;
  out_labeled "key_info_labeled" "Chain ID" (fmt_item kwargs "run_id") false ;;
  out_labeled "key_info_labeled" "Parent chain ID" (fmt_item kwargs "parent_run_id") false ;;
  (if (1 <? length prompts)%nat then
     out_plain "debug_error" (ret "prompts has multiple items.") ;;
     out_plain "debug_error" (ret "Only outputting first item in prompts.") ;;
     if_debug (
       out_labeled "debug_info_labeled" "Prompts" (ret (py_str (str_list prompts))) false ;;
       breakpoint)
   else ret tt) ;;
  out_plain "key_info" (ret "Text sent to LLM:") ;;
  out_plain "llm_call" (first prompts) ;;
  if_debug (
    out_labeled "debug_info_labeled" "Arguments" (ret (py_str (VDict kwargs))) false ;;
    out_labeled "debug_info_labeled" "serialized" (ret (py_str (VDict serialized))) false).

Definition on_llm_end (response : LLMResult) (kwargs : dict) : M unit :=
  out_plain "heading" (ret (nl ++ nl ++ "> Received response from LLM.")) ;;
  out_labeled "key_info_labeled" "Chain ID" (fmt_item kwargs "run_id") false ;;
  out_labeled "key_info_labeled" "Parent chain ID" (fmt_item kwargs "parent_run_id") false ;;
  (if (1 <? length (generations response))%nat then
     out_plain "debug_error" (ret "response object has multiple generations.") ;;
     out_plain "debug_error" (ret "Only outputting first generation in response.") ;;
     if_debug (
       out_labeled "debug_info_labeled" "response" (ret (response_str response)) false ;;
       breakpoint)
   else ret tt) ;;
  out_plain "key_info" (ret "Text received from LLM:") ;;
  out_plain "llm_output"
    (g0 <- first (generations response) ;; g <- first g0 ;; ret (text g)) ;;
  if_debug (
    out_labeled "debug_info_labeled" "Arguments" (ret (py_str (VDict kwargs))) false ;;
    out_labeled "debug_info_labeled" "response" (ret (response_str response)) false).

(** The keys [on_chain_start] leaves out of its listing. *)
Definition noise_keys : list string := ["stop"; "agent_scratchpad"].

Definition on_chain_start (serialized inputs kwargs : dict) : M unit :=
  out_plain "heading" (ret (nl ++ nl ++ "> Starting new chain.")) ;;
  class_name <-
    (if negb (dict_has "id" serialized) then
       out_plain "debug_error" (ret "Missing serialized['id']") ;;
       if_debug (
         out_labeled "debug_info_labeled" "serialized"
           (ret (py_str (VDict serialized))) false ;;
         breakpoint) ;;
       ret "Unknown -- serialized['id'] is missing"
     else
       v <- getitem serialized "id" ;; join "." v) ;;
  out_labeled "key_info_labeled" "Chain class" (ret class_name) false ;;
  out_labeled "key_info_labeled" "Chain ID" (fmt_item kwargs "run_id") false ;;
  out_labeled "key_info_labeled" "Parent chain ID" (fmt_item kwargs "parent_run_id") false ;;
  (if (length inputs <? 1)%nat then
     (* self.out.debug.error("Chain inputs is empty.") *)
     (d <- getattr_out "debug" ;;
      e <- getattr_method d "error" ;;
      call_plain e "Chain inputs is empty.") ;;
     if_debug (
       out_labeled "debug_info_labeled" "inputs" (ret (py_str (VDict inputs))) false ;;
       breakpoint)
   else
     out_plain "key_info" (ret "Iterating through keys/values of chain inputs:")) ;;
  for_each inputs (fun kv =>
    let '(key, value) := kv in
    if negb (existsb (String.eqb key) noise_keys) then
      out_labeled "key_info_labeled" ("   " ++ key) (ret (py_str value)) false
    else ret tt) ;;
  if_debug (
    out_labeled "debug_info_labeled" "Arguments" (ret (py_str (VDict kwargs))) false ;;
    out_labeled "debug_info_labeled" "inputs" (ret (py_str (VDict inputs))) false ;;
    out_labeled "debug_info_labeled" "serialized" (ret (py_str (VDict serialized))) false).

Definition on_chain_end (outputs kwargs : dict) : M unit :=
  out_plain "heading" (ret (nl ++ nl ++ "> Ending chain.")) ;;
  out_labeled "key_info_labeled" "Chain ID" (fmt_item kwargs "run_id") false ;;
  out_labeled "key_info_labeled" "Parent chain ID" (fmt_item kwargs "parent_run_id") false ;;
  (* the local [outputs_keys] is bound in the else branch only *)
  outputs_keys <-
    (if (length outputs =? 0)%nat then
       out_plain "debug_errors" (ret "No chain outputs.") ;;
       if_debug (
         out_labeled "debug_info_labeled" "outputs" (ret (py_str (VDict outputs))) false ;;
         breakpoint) ;;
       ret None
     else ret (Some (keys outputs))) ;;
  ks <- match outputs_keys with
        | Some ks => ret ks
        | None => raise (UnboundLocalError "outputs_keys")
        end ;;
  for_each ks (fun key =>
    out_labeled "key_info_labeled" ("Output " ++ key) (fmt_item outputs key) true) ;;
  if_debug (
    out_labeled "debug_info_labeled" "Arguments" (ret (py_str (VDict kwargs))) false ;;
    out_labeled "debug_info_labeled" "outputs" (ret (py_str (VDict outputs))) false).

Definition on_tool_start (serialized : dict) (input_str : string) (kwargs : dict)
  : M unit :=
  out_plain "heading" (ret (nl ++ nl ++ "> Using tool.")) ;;
  out_labeled "key_info_labeled" "Chain ID" (fmt_item kwargs "run_id") false ;;
  out_labeled "key_info_labeled" "Parent chain ID" (fmt_item kwargs "parent_run_id") false ;;
  out_labeled "key_info_labeled" "Tool name" (fmt_item serialized "name") false ;;
  out_plain "key_info" (ret "Query sent to tool:") ;;
  out_plain "tool_call" (ret input_str) ;;
  if_debug (
    out_labeled "debug_info_labeled" "Arguments" (ret (py_str (VDict kwargs))) false ;;
    out_labeled "debug_info_labeled" "serialized" (ret (py_str (VDict serialized))) false).

(** [locals()] in the body of [on_tool_end]: its parameters. *)
Definition on_tool_end_locals : list string :=
  ["self"; "output"; "color"; "observation_prefix"; "llm_prefix"; "kwargs"].

Definition on_tool_end (output : string) (color observation_prefix llm_prefix : option string)
  (kwargs : dict) : M unit :=
  out_plain "heading" (ret (nl ++ nl ++ "> Received tool output.")) ;;
  out_labeled "key_info_labeled" "Chain ID" (fmt_item kwargs "run_id") false ;;
  out_labeled "key_info_labeled" "Parent chain ID" (fmt_item kwargs "parent_run_id") false ;;
  out_labeled "key_info_labeled" "Tool name" (fmt_item kwargs "name") false ;;
  (if negb (existsb (String.eqb "output") on_tool_end_locals) then
     out_plain "debug_error" (ret "No tool output.") ;;
     if_debug breakpoint
   else
     out_plain "key_info" (ret "Response from tool:") ;;
     out_plain "tool_output" (ret output)) ;;
  if_debug (
    out_labeled "debug_info_labeled" "Arguments" (ret (py_str (VDict kwargs))) false ;;
    out_labeled "debug_info_labeled" "observation_prefix"
      (ret (py_str (opt_str observation_prefix))) false ;;
    out_labeled "debug_info_labeled" "llm_prefix" (ret (py_str (opt_str llm_prefix))) false).

Definition on_agent_action (action : AgentAction) (color : option string)
  (kwargs : dict) : M unit :=
  out_plain "heading" (ret (nl ++ nl ++ "> Agent taking an action.")) ;;
  out_labeled "key_info_labeled" "Chain ID" (fmt_item kwargs "run_id") false ;;
  out_labeled "key_info_labeled" "Parent chain ID" (fmt_item kwargs "parent_run_id") false ;;
  match action_log action with
  | None =>
      out_plain "debug_error" (ret "No log in action.") ;;
      if_debug (
        out_labeled "debug_info_labeled" "action" (ret (action_str action)) false ;;
        breakpoint)
  | Some log =>
      out_labeled "key_info_labeled" "Action log" (ret log) true
  end ;;
  if_debug (
    out_labeled "debug_info_labeled" "Arguments" (ret (py_str (VDict kwargs))) false ;;
    out_labeled "debug_info_labeled" "action" (ret (action_str action)) false).

Definition on_agent_finish (finish : AgentFinish) (color : option string)
  (kwargs : dict) : M unit :=
  out_plain "heading" (ret (nl ++ nl ++ "> Agent has finished.")) ;;
  out_labeled "key_info_labeled" "Chain ID" (fmt_item kwargs "run_id") false ;;
  out_labeled "key_info_labeled" "Parent chain ID" (fmt_item kwargs "parent_run_id") false ;;
  match finish_log finish with
  | None =>
      out_plain "debug_error" (ret "No log in action finish.") ;;
      if_debug breakpoint
  | Some log =>
      out_labeled "key_info_labeled" "Action finish log" (ret log) true
  end ;;
  if_debug (
    out_labeled "debug_info_labeled" "Arguments" (ret (py_str (VDict kwargs))) false ;;
    out_labeled "debug_info_labeled" "finish" (ret (finish_str finish)) false).

Definition on_llm_error (error : PyVal) (kwargs : dict) : M unit :=
  out_plain "debug_error" (ret "LLM Error") ;;
  out_labeled "debug_info_labeled" "Error object" (ret (py_str error)) false ;;
  if_debug breakpoint.

Definition on_chain_error (error : PyVal) (kwargs : dict) : M unit :=
  out_plain "debug_error" (ret "Chain Error") ;;
  out_labeled "debug_info_labeled" "Error object" (ret (py_str error)) false ;;
  if_debug breakpoint.

Definition on_tool_error (error : PyVal) (kwargs : dict) : M unit :=
  out_plain "debug_error" (ret "Chain Error") ;;
  out_labeled "debug_info_labeled" "Error object" (ret (py_str error)) false ;;
  if_debug breakpoint.

Definition on_retriever_start (serialized : dict) (query : string)
  (run_id parent_run_id : PyVal) (tags : option (list string))
  (metadata : option dict) (kwargs : dict) : M unit :=
  out_plain "heading" (ret (nl ++ nl ++ "> Querying retriever.")) ;;
  out_labeled "key_info_labeled" "Chain ID" (ret (py_str run_id)) false ;;
  out_labeled "key_info_labeled" "Parent chain ID" (ret (py_str parent_run_id)) false ;;
  out_labeled "key_info_labeled" "Tags" (ret (py_str (opt_str_list tags))) false ;;
  class_name <-
    (if negb (dict_has "id" serialized) then
       out_plain "debug_error" (ret "Missing serialized['id']") ;;
       if_debug (
         out_labeled "debug_info_labeled" "serialized"
           (ret (py_str (VDict serialized))) false ;;
         breakpoint) ;;
       ret "Unknown -- serialized['id'] is missing"
     else
       v <- getitem serialized "id" ;; join "." v) ;;
  out_labeled "key_info_labeled" "Retriever class" (ret class_name) false ;;
  out_plain "key_info" (ret "Query sent to retriever:") ;;
  out_plain "tool_call" (ret query) ;;
  if_debug (
    out_labeled "debug_info_labeled" "Arguments" (ret (py_str (VDict kwargs))) false ;;
    out_labeled "debug_info_labeled" "metadata" (ret (py_str (opt_dict metadata))) false ;;
    out_labeled "debug_info_labeled" "serialized" (ret (py_str (VDict serialized))) false).

Definition on_retriever_end (documents : list Document) (run_id parent_run_id : PyVal)
  (kwargs : dict) : M unit :=
  out_plain "heading" (ret (nl ++ nl ++ "> Retriever finished.")) ;;
  out_labeled "key_info_labeled" "Chain ID" (ret (py_str run_id)) false ;;
  out_labeled "key_info_labeled" "Parent chain ID" (ret (py_str parent_run_id)) false ;;
  out_plain "key_info" (ret ("Found " ++ str_of_nat (length documents) ++ " documents.")) ;;
  if (length documents =? 0)%nat then
    out_plain "debug_error" (ret "No documents found.") ;;
    if_debug breakpoint
  else
    for_each (enumerate documents) (fun nd =>
      let '(doc_num, doc) := nd in
      out_plain "key_info" (ret "---------------------------------------------------") ;;
      out_plain "key_info"
        (ret ("Document number " ++ str_of_nat doc_num ++ " of "
                ++ str_of_nat (length documents))) ;;
      out_labeled "key_info_labeled" "Metadata" (ret (py_str (VDict (metadata doc)))) false ;;
      out_plain "key_info" (ret "Document contents:") ;;
      out_plain "tool_output" (ret (page_content doc))).

(** ** One event delivered by the framework *)

Inductive event : Type :=
| Text (text : string) (color : option string) (end_ : string) (kwargs : dict)
| LlmStart (serialized : dict) (prompts : list string) (kwargs : dict)
| LlmEnd (response : LLMResult) (kwargs : dict)
| ChainStart (serialized inputs kwargs : dict)
| ChainEnd (outputs kwargs : dict)
| ToolStart (serialized : dict) (input_str : string) (kwargs : dict)
| ToolEnd (output : string) (color observation_prefix llm_prefix : option string)
    (kwargs : dict)
| AgentAct (action : AgentAction) (color : option string) (kwargs : dict)
| AgentFin (finish : AgentFinish) (color : option string) (kwargs : dict)
| LlmError (error : PyVal) (kwargs : dict)
| ChainError (error : PyVal) (kwargs : dict)
| ToolError (error : PyVal) (kwargs : dict)
| RetrieverStart (serialized : dict) (query : string) (run_id parent_run_id : PyVal)
    (tags : option (list string)) (metadata : option dict) (kwargs : dict)
| RetrieverEnd (documents : list Document) (run_id parent_run_id : PyVal) (kwargs : dict).

Definition handle (ev : event) : M unit :=
  match ev with
  | Text t c e kw => on_text t c e kw
  | LlmStart s p kw => on_llm_start s p kw
  | LlmEnd r kw => on_llm_end r kw
  | ChainStart s i kw => on_chain_start s i kw
  | ChainEnd o kw => on_chain_end o kw
  | ToolStart s i kw => on_tool_start s i kw
  | ToolEnd o c op lp kw => on_tool_end o c op lp kw
  | AgentAct a c kw => on_agent_action a c kw
  | AgentFin f c kw => on_agent_finish f c kw
  | LlmError e kw => on_llm_error e kw
  | ChainError e kw => on_chain_error e kw
  | ToolError e kw => on_tool_error e kw
  | RetrieverStart s q r p t m kw => on_retriever_start s q r p t m kw
  | RetrieverEnd d r p kw => on_retriever_end d r p kw
  end.

(** ** The handler object is left alone

    Only [__init__] assigns to the fields of [self].  [frame m] says that
    [m] hands back the object it was given; the handlers do, for every
    output sink. *)

Definition frame {A} (m : M A) : Prop :=
  forall self, self_after (m self) = self.


(** ** Reading what a handler wrote *)

(** The reporter with the console formatter of the source as its sink. *)
Definition reporter (dm : option bool) : AllChainDetails :=
  __init__ dm OutputFormatter_class.

(** The text an effect puts on the console. *)
Definition shown (e : effect) : string :=
  match e with
  | Print t _ => t
  | Cpprint t => t
  | Breakpoint => EmptyString
  end.

Definition output_contains (s : string) (tr : list effect) : bool :=
  existsb (fun e => contains s (shown e)) tr.

Definition is_breakpoint (e : effect) : bool :=
  match e with Breakpoint => true | _ => false end.

(** The process was suspended for inspection. *)
Definition suspended (tr : list effect) : bool := existsb is_breakpoint tr.

(** A heading line: every heading of the source is [f"\n\n> ..."] printed
    in bold. *)
Definition is_heading (e : effect) : bool :=
  match e with
  | Print t _ => String.prefix (Color.BOLD ++ nl ++ nl ++ "> ") t
  | _ => false
  end.

Definition not_heading (e : effect) : bool := negb (is_heading e).

Definition no_heading (tr : list effect) : bool := forallb not_heading tr.

(** *** Results of a call *)

(** The call returned [a], having written [tr]. *)
Definition ok {A} (self : AllChainDetails) (tr : list effect) (a : A) : result A :=
  {| self_after := self; written := tr; outcome := inr a |}.

(** The call raised [e], having written [tr]. *)
Definition failed {A} (self : AllChainDetails) (tr : list effect) (e : exn) : result A :=
  {| self_after := self; written := tr; outcome := inl e |}.

(** [r] with [tr] written before it. *)
Definition after {A} (tr : list effect) (r : result A) : result A :=
  {| self_after := self_after r; written := (tr ++ written r)%list; outcome := outcome r |}.

(** Everything [m] writes satisfies [P]. *)
Definition writes {A} (P : effect -> bool) (m : M A) (self : AllChainDetails) : Prop :=
  forallb P (written (m self)) = true.

(** A warning line: the bold red register of [debug_error]. *)
Definition is_warning (e : effect) : bool :=
  match e with
  | Print t _ => String.prefix (Color.BOLD ++ Color.RED) t
  | _ => false
  end.

(** The keyword arguments every callback of the framework carries. *)
Definition sample_kwargs : dict :=
  [("run_id", VObj "6f1c" "UUID('6f1c')"); ("parent_run_id", VNone)].

(** The line that opens the section of one retrieved document. *)
Definition is_document_number (e : effect) : bool :=
  match e with
  | Print t _ =>
      String.prefix (Color.BOLD ++ Color.DARKCYAN ++ "Document number ") t
  | _ => false
  end.

(** What [on_retriever_end] writes for document [n] of [total]. *)
Definition document_section (n total : nat) (doc : Document) : list effect :=
  (OutputFormatter.key_info "---------------------------------------------------"
   ++ OutputFormatter.key_info
        ("Document number " ++ str_of_nat n ++ " of " ++ str_of_nat total)
   ++ OutputFormatter.key_info_labeled "Metadata" (py_str (VDict (metadata doc))) false
   ++ OutputFormatter.key_info "Document contents:"
   ++ OutputFormatter.tool_output (page_content doc))%list.

(** The bindings of the chain inputs that [on_chain_start] lists, and the
    line it writes for one of them. *)
Definition listed (kv : string * PyVal) : bool :=
  negb (existsb (String.eqb (fst kv)) noise_keys).

Definition input_line (kv : string * PyVal) : list effect :=
  OutputFormatter.key_info_labeled ("   " ++ fst kv) (py_str (snd kv)) false.

(** The handlers that open with a heading and the two identifiers: the
    title of the event kind and the identifiers as they are formatted, when
    the payload carries them. *)
Definition ids_in (title : string) (kwargs : dict) : option (string * string * string) :=
  match dict_get "run_id" kwargs, dict_get "parent_run_id" kwargs with
  | Some rid, Some pid => Some (title, py_str rid, py_str pid)
  | _, _ => None
  end.

Definition leads (ev : event) : option (string * string * string) :=
  match ev with
  | LlmStart _ _ kw => ids_in "> Sending text to the LLM." kw
  | LlmEnd _ kw => ids_in "> Received response from LLM." kw
  | ChainEnd _ kw => ids_in "> Ending chain." kw
  | ToolStart _ _ kw => ids_in "> Using tool." kw
  | ToolEnd _ _ _ _ kw => ids_in "> Received tool output." kw
  | AgentAct _ _ kw => ids_in "> Agent taking an action." kw
  | AgentFin _ _ kw => ids_in "> Agent has finished." kw
  | RetrieverStart _ _ rid pid _ _ _ =>
      Some ("> Querying retriever.", py_str rid, py_str pid)
  | RetrieverEnd _ rid pid _ =>
      Some ("> Retriever finished.", py_str rid, py_str pid)
  | Text _ _ _ _ | ChainStart _ _ _ | LlmError _ _ | ChainError _ _ | ToolError _ _ =>
      None
  end.

(** *** Payloads on which every handler returns

    The payload carries the keys the handler reads without a guard, the
    list it indexes is not empty, [serialized["id"]], when present, can be
    joined, and the mapping of a chain event is not empty. *)
Definition has_ids (kwargs : dict) : bool :=
  dict_has "run_id" kwargs && dict_has "parent_run_id" kwargs.

Definition joinable_id (serialized : dict) : bool :=
  match dict_get "id" serialized with
  | Some v => match iter_strs v with Some _ => true | None => false end
  | None => true
  end.

Definition nonempty {A} (l : list A) : bool :=
  match l with [] => false | _ :: _ => true end.

Definition well_formed (ev : event) : bool :=
  match ev with
  | Text _ _ _ kw => has_ids kw
  | LlmStart _ prompts kw => has_ids kw && nonempty prompts
  | LlmEnd response kw =>
      has_ids kw
      && match generations response with g0 :: _ => nonempty g0 | [] => false end
  | ChainStart serialized inputs kw =>
      has_ids kw && joinable_id serialized && nonempty inputs
  | ChainEnd outputs kw => has_ids kw && nonempty outputs
  | ToolStart serialized _ kw => has_ids kw && dict_has "name" serialized
  | ToolEnd _ _ _ _ kw => has_ids kw && dict_has "name" kw
  | AgentAct _ _ kw => has_ids kw
  | AgentFin _ _ kw => has_ids kw
  | LlmError _ _ | ChainError _ _ | ToolError _ _ => true
  | RetrieverStart serialized _ _ _ _ _ _ => joinable_id serialized
  | RetrieverEnd _ _ _ _ => true
  end.

(** The call returned. *)
Definition returns {A} (r : result A) : Prop := exists a, outcome r = inr a.

(** *** Further properties of the handlers *)

(** The handlers that read [kwargs['run_id']] right after their heading:
    the title of the heading and the keyword arguments. *)
Definition opening (ev : event) : option (string * dict) :=
  match ev with
  | LlmStart _ _ kw => Some ("> Sending text to the LLM.", kw)
  | LlmEnd _ kw => Some ("> Received response from LLM.", kw)
  | ChainEnd _ kw => Some ("> Ending chain.", kw)
  | ToolStart _ _ kw => Some ("> Using tool.", kw)
  | ToolEnd _ _ _ _ kw => Some ("> Received tool output.", kw)
  | AgentAct _ _ kw => Some ("> Agent taking an action.", kw)
  | AgentFin _ _ kw => Some ("> Agent has finished.", kw)
  | _ => None
  end.

(** The two identifier lines of a handler. *)
Definition id_lines (rid pid : PyVal) : list effect :=
  (OutputFormatter.key_info_labeled "Chain ID" (py_str rid) false
   ++ OutputFormatter.key_info_labeled "Parent chain ID" (py_str pid) false)%list.

(** The dump of the keyword arguments that opens the debug output. *)
Definition arguments_dump (kwargs : dict) : list effect :=
  OutputFormatter.debug_info_labeled "Arguments" (py_str (VDict kwargs)) false.

(** The line [on_chain_end] writes for one binding of the outputs. *)
Definition output_line (kv : string * PyVal) : list effect :=
  OutputFormatter.key_info_labeled ("Output " ++ fst kv) (py_str (snd kv)) true.

Definition not_breakpoint (e : effect) : bool := negb (is_breakpoint e).

(** The anomaly a handler checks its payload for, if it checks for one and
    the check is reached on every payload that carries the identifiers:
    several prompts, several generation lists, no [log] attribute, no
    [serialized["id"]], no documents. *)
Definition anomaly (ev : event) : option bool :=
  match ev with
  | LlmStart _ prompts _ => Some (1 <? length prompts)%nat
  | LlmEnd response _ => Some (1 <? length (generations response))%nat
  | AgentAct action _ _ =>
      Some (match action_log action with None => true | Some _ => false end)
  | AgentFin finish _ _ =>
      Some (match finish_log finish with None => true | Some _ => false end)
  | RetrieverStart serialized _ _ _ _ _ _ => Some (negb (dict_has "id" serialized))
  | RetrieverEnd documents _ _ _ => Some (length documents =? 0)%nat
  | _ => None
  end.

(** The payloads on which a handler of the reporter returns: [on_text]
    outside debug mode reads nothing; otherwise as [well_formed]. *)
Definition returns_at (dm : option bool) (ev : event) : bool :=
  match ev with
  | Text _ _ _ kw => negb (truthy dm) || has_ids kw
  | _ => well_formed ev
  end.

(** The title of the heading of an event kind, for the handlers that open
    with a heading whatever the mode. *)
Definition title_of (ev : event) : option string :=
  match ev with
  | LlmStart _ _ _ => Some "> Sending text to the LLM."
  | LlmEnd _ _ => Some "> Received response from LLM."
  | ChainStart _ _ _ => Some "> Starting new chain."
  | ChainEnd _ _ => Some "> Ending chain."
  | ToolStart _ _ _ => Some "> Using tool."
  | ToolEnd _ _ _ _ _ => Some "> Received tool output."
  | AgentAct _ _ _ => Some "> Agent taking an action."
  | AgentFin _ _ _ => Some "> Agent has finished."
  | RetrieverStart _ _ _ _ _ _ _ => Some "> Querying retriever."
  | RetrieverEnd _ _ _ _ => Some "> Retriever finished."
  | Text _ _ _ _ | LlmError _ _ | ChainError _ _ | ToolError _ _ => None
  end.

(** A sink whose formatting functions write nothing. *)
Definition silent (m : method) : Prop :=
  match m with
  | Plain f => forall t, f t = []
  | Labeled f => forall l c b, f l c b = []
  end.

Definition silent_sink (cls : Formatter) : Prop :=
  forall name m, class_get name cls = Some m -> silent m.

(** What a handler does without going through the sink: it enters the
    debugger, and [on_text] prints its text itself. *)
Definition direct (ev : event) (e : effect) : bool :=
  is_breakpoint e
  || match ev, e with
     | Text t _ _ _, Print s end_ => String.eqb s t && String.eqb end_ nl
     | _, _ => false
     end.


(** A sink with the ten functions of [OutputFormatter], all writing
    nothing. *)
Definition silent_class : Formatter :=
  [ ("heading", Plain (fun _ => []));
    ("key_info", Plain (fun _ => []));
    ("key_info_labeled", Labeled (fun _ _ _ => []));
    ("debug_info", Plain (fun _ => []));
    ("debug_info_labeled", Labeled (fun _ _ _ => []));
    ("llm_call", Plain (fun _ => []));
    ("llm_output", Plain (fun _ => []));
    ("tool_call", Plain (fun _ => []));
    ("tool_output", Plain (fun _ => []));
    ("debug_error", Plain (fun _ => [])) ].

(** A line in the underlined purple register of [tool_output]. *)
Definition is_tool_output (e : effect) : bool :=
  match e with
  | Print t _ => String.prefix (Color.UNDERLINE ++ Color.PURPLE) t
  | _ => false
  end.

(** The label that opens the line of the chain input [key]. *)
Definition input_label (key : string) : effect :=
  Print (Color.BOLD ++ Color.DARKCYAN ++ ("   " ++ key) ++ ": " ++ Color.END
         ++ Color.DARKCYAN) EmptyString.

Definition is_input_label (key : string) (e : effect) : bool :=
  match e with
  | Print t end_ =>
      String.eqb t (Color.BOLD ++ Color.DARKCYAN ++ ("   " ++ key) ++ ": " ++ Color.END
                    ++ Color.DARKCYAN)
      && String.eqb end_ EmptyString
  | _ => false
  end.

(** ** The reporter over its lifetime *)

(** The reporter after the framework has delivered the events [evs] to it,
    one call each, whether or not a call raised. *)
Definition delivered (evs : list event) (self : AllChainDetails) : AllChainDetails :=
  fold_left (fun s ev => self_after (handle ev s)) evs self.

(** What each of these calls wrote and how it ended. *)
Fixpoint transcript (evs : list event) (self : AllChainDetails)
  : list (list effect * (exn + unit)) :=
  match evs with
  | [] => []
  | ev :: rest =>
      let r := handle ev self in
      (written r, outcome r) :: transcript rest (self_after r)
  end.

(** Calling [m] again on the object the first call left writes the same and
    ends the same. *)
Definition idempotent {A} (m : M A) : Prop :=
  forall self,
    written (m (self_after (m self))) = written (m self)
    /\ outcome (m (self_after (m self))) = outcome (m self).
(** ** Proofs: the handler object is left alone *)

Lemma frame_ret A (a : A) : frame (ret a).
Proof. intro; reflexivity. Qed.

Lemma frame_raise A (e : exn) : frame (@raise A e).
Proof. intro; reflexivity. Qed.

Lemma frame_emit es : frame (emit es).
Proof. intro; reflexivity. Qed.

Lemma frame_get_debug_mode : frame get_debug_mode.
Proof. intro; reflexivity. Qed.

Lemma frame_getattr_out name : frame (getattr_out name).
Proof. intro; reflexivity. Qed.

Lemma frame_bind A B (m : M A) (k : A -> M B) :
  frame m -> (forall a, frame (k a)) -> frame (bind m k).
Proof.
  intros Hm Hk self. unfold bind.
  destruct (outcome (m self)) as [e | a]; simpl.
  - apply Hm.
  - rewrite Hm. apply Hk.
Qed.

Lemma frame_for_each A (l : list A) (body : A -> M unit) :
  (forall x, frame (body x)) -> frame (for_each l body).
Proof.
  intro Hb. induction l as [| x r IH]; simpl.
  - apply frame_ret.
  - apply frame_bind; auto.
Qed.

Create HintDb frame.
#[export] Hint Resolve frame_ret frame_raise frame_emit frame_get_debug_mode
  frame_getattr_out : frame.

Ltac frame_step :=
  match goal with
  | |- forall _, _ => intro
  | |- frame (bind _ _) => apply frame_bind
  | |- frame (for_each _ _) => apply frame_for_each
  | |- frame (if ?b then _ else _) => destruct b
  | |- frame (match ?x with _ => _ end) => destruct x
  | |- frame (let '(_, _) := ?p in _) => destruct p
  | |- frame _ => solve [auto with frame]
  end.

Ltac frame_tac := repeat frame_step.

Lemma frame_call_plain m t : frame (call_plain m t).
Proof. unfold call_plain. frame_tac. Qed.

Lemma frame_call_labeled m l c b : frame (call_labeled m l c b).
Proof. unfold call_labeled. frame_tac. Qed.

#[export] Hint Resolve frame_call_plain frame_call_labeled : frame.

Lemma frame_out_plain name (text : M string) :
  frame text -> frame (out_plain name text).
Proof. intro. unfold out_plain. frame_tac. Qed.

Lemma frame_out_labeled name label (contents : M string) b :
  frame contents -> frame (out_labeled name label contents b).
Proof. intro. unfold out_labeled. frame_tac. Qed.

Lemma frame_getitem d k : frame (getitem d k).
Proof. unfold getitem. frame_tac. Qed.

Lemma frame_fmt_item d k : frame (fmt_item d k).
Proof. unfold fmt_item. frame_tac. apply frame_getitem. Qed.

Lemma frame_first A (l : list A) : frame (first l).
Proof. unfold first. frame_tac. Qed.

Lemma frame_join sep v : frame (join sep v).
Proof. unfold join. frame_tac. Qed.

Lemma frame_breakpoint : frame breakpoint.
Proof. apply frame_emit. Qed.

Lemma frame_if_debug body : frame body -> frame (if_debug body).
Proof. intro. unfold if_debug. frame_tac. Qed.

#[export] Hint Resolve frame_getitem frame_fmt_item frame_first frame_join
  frame_breakpoint : frame.

Ltac handler_frame :=
  repeat first
    [ apply frame_out_plain | apply frame_out_labeled | apply frame_if_debug
    | frame_step ].

Lemma frame_handle ev : frame (handle ev).
Proof.
  destruct ev; simpl;
    unfold on_text, on_llm_start, on_llm_end, on_chain_start, on_chain_end,
      on_tool_start, on_tool_end, on_agent_action, on_agent_finish, on_llm_error,
      on_chain_error, on_tool_error, on_retriever_start, on_retriever_end,
      getattr_method;
    handler_frame.
Qed.

(** ** Proofs: running a handler step by step *)

Lemma bind_ok A B (m : M A) (k : A -> M B) self tr a :
  m self = ok self tr a -> bind m k self = after tr (k a self).
Proof. intro H. unfold bind. rewrite H. reflexivity. Qed.

Lemma bind_failed A B (m : M A) (k : A -> M B) self tr e :
  m self = failed self tr e -> bind m k self = failed self tr e.
Proof. intro H. unfold bind. rewrite H. reflexivity. Qed.

Lemma after_ok A tr self tr' (a : A) :
  after tr (ok self tr' a) = ok self (tr ++ tr') a.
Proof. reflexivity. Qed.

Lemma after_failed A tr self tr' e :
  after tr (@failed A self tr' e) = failed self (tr ++ tr') e.
Proof. reflexivity. Qed.

Lemma after_nil A (r : result A) : after [] r = r.
Proof. destruct r; reflexivity. Qed.

Lemma bind_assoc A B C (m : M A) (k1 : A -> M B) (k2 : B -> M C) self :
  bind (bind m k1) k2 self = bind m (fun a => bind (k1 a) k2) self.
Proof.
  unfold bind. destruct (m self) as [s w [e | a]]; cbn [outcome self_after written].
  - reflexivity.
  - destruct (k1 a s) as [s' w' [e | b]]; cbn [outcome self_after written].
    + reflexivity.
    + rewrite app_assoc. reflexivity.
Qed.

Lemma bind_ret A B (a : A) (k : A -> M B) self : bind (ret a) k self = k a self.
Proof. unfold bind, ret; cbn [outcome self_after written]. destruct (k a self); reflexivity. Qed.

Lemma bind_raise A B e (k : A -> M B) self : bind (raise e) k self = failed self [] e.
Proof. reflexivity. Qed.

Lemma bind_get_debug_mode B (k : option bool -> M B) self :
  bind get_debug_mode k self = k (debug_mode self) self.
Proof.
  unfold bind, get_debug_mode; cbn [outcome self_after written].
  destruct (k _ self); reflexivity.
Qed.

Section AtReporter.
Variable dm : option bool.

Lemma run_plain name f t :
    class_get name OutputFormatter_class = Some (Plain f) ->
    out_plain name (ret t) (reporter dm) = ok (reporter dm) (f t) tt.
  Proof.
    intro H. unfold out_plain, bind, getattr_out, reporter, __init__;
      cbn [out outcome self_after written].
    rewrite H. reflexivity.
  Qed.

Lemma run_labeled name f label c b :
    class_get name OutputFormatter_class = Some (Labeled f) ->
    out_labeled name label (ret c) b (reporter dm) = ok (reporter dm) (f label c b) tt.
  Proof.
    intro H. unfold out_labeled, bind, getattr_out, reporter, __init__;
      cbn [out outcome self_after written].
    rewrite H. reflexivity.
  Qed.

Lemma run_labeled_item name f label d key v b :
    class_get name OutputFormatter_class = Some (Labeled f) ->
    dict_get key d = Some v ->
    out_labeled name label (fmt_item d key) b (reporter dm) = ok (reporter dm) (f label (py_str v) b) tt.
  Proof.
    intros H Hk.
    unfold out_labeled, fmt_item, getitem, bind, getattr_out, reporter, __init__;
      cbn [out outcome self_after written].
    rewrite H; cbn [out outcome self_after written]. rewrite Hk. reflexivity.
  Qed.

Lemma fail_labeled_item name f label d key b :
    class_get name OutputFormatter_class = Some (Labeled f) ->
    dict_get key d = None ->
    out_labeled name label (fmt_item d key) b (reporter dm) = failed (reporter dm) [] (KeyError key).
  Proof.
    intros H Hk.
    unfold out_labeled, fmt_item, getitem, bind, getattr_out, reporter, __init__;
      cbn [out outcome self_after written].
    rewrite H; cbn [out outcome self_after written]. rewrite Hk. reflexivity.
  Qed.

Lemma fail_missing_attr name (text : M string) :
    class_get name OutputFormatter_class = None ->
    out_plain name text (reporter dm) = failed (reporter dm) [] (AttributeError name).
  Proof.
    intro H. unfold out_plain, bind, getattr_out, reporter, __init__;
      cbn [out outcome self_after written].
    rewrite H. reflexivity.
  Qed.

Lemma run_if_debug body :
    if_debug body (reporter dm) = if truthy dm then body (reporter dm) else ok (reporter dm) [] tt.
  Proof.
    unfold if_debug, bind, get_debug_mode, reporter, __init__; simpl.
    destruct (truthy dm); [| reflexivity].
    destruct (body _) as [s w o]; simpl. destruct o; reflexivity.
  Qed.

Lemma run_for_each A (l : list A) (body : A -> M unit) (g : A -> list effect) :
    (forall x, In x l -> body x (reporter dm) = ok (reporter dm) (g x) tt) ->
    for_each l body (reporter dm) = ok (reporter dm) (flat_map g l) tt.
  Proof.
    induction l as [| x r IH]; intro H; simpl.
    - reflexivity.
    - rewrite (bind_ok _ _ (H x (or_introl eq_refl))).
      rewrite IH by (intros; apply H; right; assumption).
      reflexivity.
  Qed.

Lemma bind_if_debug B body (k : unit -> M B) :
    bind (if_debug body) k (reporter dm)
    = if truthy dm then bind body k (reporter dm) else k tt (reporter dm).
  Proof.
    unfold if_debug. rewrite bind_assoc, bind_get_debug_mode.
    cbn [reporter __init__ debug_mode].
    destruct (truthy dm); [reflexivity | apply bind_ret].
  Qed.

Lemma run_emit es : emit es (reporter dm) = ok (reporter dm) es tt.
  Proof. reflexivity. Qed.

Lemma run_breakpoint : breakpoint (reporter dm) = ok (reporter dm) [Breakpoint] tt.
  Proof. reflexivity. Qed.

Lemma run_ret A (a : A) : ret a (reporter dm) = ok (reporter dm) [] a.
  Proof. reflexivity. Qed.

Lemma bind_if_debug_on B body (k : unit -> M B) :
    truthy dm = true ->
    bind (if_debug body) k (reporter dm) = bind body k (reporter dm).
  Proof. intro H. rewrite bind_if_debug, H. reflexivity. Qed.

Lemma bind_if_debug_off B body (k : unit -> M B) :
    truthy dm = false ->
    bind (if_debug body) k (reporter dm) = k tt (reporter dm).
  Proof. intro H. rewrite bind_if_debug, H. reflexivity. Qed.

Lemma run_if_debug_on body :
    truthy dm = true -> if_debug body (reporter dm) = body (reporter dm).
  Proof. intro H. rewrite run_if_debug, H. reflexivity. Qed.

Lemma run_if_debug_off body :
    truthy dm = false -> if_debug body (reporter dm) = ok (reporter dm) [] tt.
  Proof. intro H. rewrite run_if_debug, H. reflexivity. Qed.
End AtReporter.

(** One statement of a handler body at a time. *)
Ltac run_step :=
  first
    [ rewrite bind_assoc
    | rewrite bind_ret
    | rewrite bind_raise
    | rewrite bind_if_debug_on by (first [reflexivity | assumption])
    | rewrite bind_if_debug_off by (first [reflexivity | assumption])
    | erewrite bind_ok by (first
        [ apply run_plain; reflexivity
        | apply run_labeled; reflexivity
        | apply run_labeled_item; [reflexivity | eassumption]
        | apply run_breakpoint
        | apply run_emit ])
    | erewrite bind_failed by (first
        [ eapply fail_labeled_item; [reflexivity | eassumption]
        | apply fail_missing_attr; reflexivity ])
    | rewrite run_if_debug_on by (first [reflexivity | assumption])
    | rewrite run_if_debug_off by (first [reflexivity | assumption])
    | erewrite run_plain by reflexivity
    | erewrite run_labeled by reflexivity
    | erewrite run_labeled_item by (first [reflexivity | eassumption])
    | erewrite fail_labeled_item by (first [reflexivity | eassumption])
    | erewrite fail_missing_attr by reflexivity
    | rewrite run_breakpoint
    | rewrite run_emit ].

Ltac run := repeat run_step.

(** For each debug mode. *)
Ltac by_mode dm H := destruct (truthy dm) eqn:H.

Lemma output_contains_app s a b :
  output_contains s (a ++ b) = output_contains s a || output_contains s b.
Proof. apply existsb_app. Qed.

Lemma output_contains_mid s a x b :
  output_contains s x = true -> output_contains s (a ++ x ++ b) = true.
Proof.
  intro H. rewrite !output_contains_app, H.
  rewrite orb_true_l. apply orb_true_r.
Qed.

Lemma not_In_forallb A (P : A -> bool) (x : A) (l : list A) :
  P x = true -> forallb (fun e => negb (P e)) l = true -> ~ In x l.
Proof.
  intros Hx Hl Hin. rewrite forallb_forall in Hl.
  specialize (Hl x Hin). rewrite Hx in Hl. discriminate Hl.
Qed.

Lemma suspended_app a b : suspended (a ++ b) = suspended a || suspended b.
Proof. apply existsb_app. Qed.

(** ** Proofs: dictionaries and joins *)

Lemma dict_get_has k d v : dict_get k d = Some v -> dict_has k d = true.
Proof.
  unfold dict_has, keys. induction d as [| [k' x] r IH]; simpl; [discriminate |].
  destruct (String.eqb k k'); [reflexivity | exact IH].
Qed.

Lemma dict_has_get k d : dict_has k d = true -> exists v, dict_get k d = Some v.
Proof.
  unfold dict_has, keys. induction d as [| [k' x] r IH]; simpl; [discriminate |].
  destruct (String.eqb k k'); [exists x; reflexivity | exact IH].
Qed.

Lemma all_strs_map l : all_strs (map VStr l) = Some l.
Proof.
  induction l as [| s r IH]; simpl; [reflexivity |].
  rewrite IH. reflexivity.
Qed.

Lemma join_str_list sep l self :
  join sep (str_list l) self = ret (String.concat sep l) self.
Proof. unfold join, str_list. cbn [iter_strs]. rewrite all_strs_map. reflexivity. Qed.

Lemma bind_getitem B d k v (c : PyVal -> M B) self :
  dict_get k d = Some v -> bind (getitem d k) c self = c v self.
Proof. intro H. unfold getitem. rewrite H. apply bind_ret. Qed.

Lemma bind_join_str_list B sep l (c : string -> M B) self :
  bind (join sep (str_list l)) c self = c (String.concat sep l) self.
Proof.
  unfold join, str_list. cbn [iter_strs]. rewrite all_strs_map. apply bind_ret.
Qed.

Lemma flat_map_filter A B (keep : A -> bool) (g : A -> list B) l :
  flat_map (fun x => if keep x then g x else []) l = flat_map g (filter keep l).
Proof.
  induction l as [| x r IH]; simpl; [reflexivity |].
  destruct (keep x); simpl; rewrite IH; reflexivity.
Qed.

Lemma listed_iff k v :
  listed (k, v) = true <-> k <> "stop" /\ k <> "agent_scratchpad".
Proof.
  unfold listed, noise_keys. cbn [fst existsb].
  rewrite orb_false_r, negb_true_iff, orb_false_iff, !String.eqb_neq.
  reflexivity.
Qed.

Lemma run_input_lines dm inputs :
  for_each inputs
    (fun kv : string * PyVal =>
       let '(key, value) := kv in
       if negb (existsb (String.eqb key) noise_keys)
       then out_labeled "key_info_labeled" ("   " ++ key) (ret (py_str value)) false
       else ret tt)
    (reporter dm)
  = ok (reporter dm) (flat_map input_line (filter listed inputs)) tt.
Proof.
  rewrite <- flat_map_filter. apply run_for_each.
  intros [key value] _. unfold listed, input_line. cbn [fst snd].
  destruct (negb (existsb (String.eqb key) noise_keys)).
  - apply run_labeled. reflexivity.
  - reflexivity.
Qed.

(** ** Proofs: what a handler writes after its heading *)

Section Writes.
Variable P : effect -> bool.
Variable self : AllChainDetails.

Lemma writes_ret A (a : A) : writes P (ret a) self.
  Proof. reflexivity. Qed.

Lemma writes_raise A e : writes P (@raise A e) self.
  Proof. reflexivity. Qed.

Lemma writes_getitem d k : writes P (getitem d k) self.
  Proof. unfold getitem. destruct (dict_get k d); reflexivity. Qed.

Lemma writes_first A (l : list A) : writes P (first l) self.
  Proof. destruct l; reflexivity. Qed.

Lemma writes_join sep v : writes P (join sep v) self.
  Proof. unfold join. destruct (iter_strs v); reflexivity. Qed.

Lemma writes_emit es : forallb P es = true -> writes P (emit es) self.
  Proof. intro H. exact H. Qed.

Lemma writes_bind_outcome A B (m : M A) (k : A -> M B) :
    frame m -> writes P m self ->
    (forall a, outcome (m self) = inr a -> writes P (k a) self) ->
    writes P (bind m k) self.
  Proof.
    unfold writes, bind. intros Hf Hm Hk.
    destruct (outcome (m self)) as [e | a] eqn:Ho; cbn [written].
    - exact Hm.
    - rewrite forallb_app, Hm, Hf. apply Hk. reflexivity.
  Qed.

Lemma writes_bind A B (m : M A) (k : A -> M B) :
    frame m -> writes P m self -> (forall a, writes P (k a) self) ->
    writes P (bind m k) self.
  Proof. intros Hf Hm Hk. apply writes_bind_outcome; auto. Qed.

Lemma writes_fmt_item d k : writes P (fmt_item d k) self.
  Proof.
    unfold fmt_item. apply writes_bind.
    - apply frame_getitem.
    - apply writes_getitem.
    - intro. apply writes_ret.
  Qed.

Lemma writes_for_each A (l : list A) (body : A -> M unit) :
    (forall x, frame (body x)) -> (forall x, writes P (body x) self) ->
    writes P (for_each l body) self.
  Proof.
    intros Hf Hb. induction l as [| x r IH]; cbn [for_each].
    - apply writes_ret.
    - apply writes_bind; auto.
  Qed.

Lemma writes_if_debug body : writes P body self -> writes P (if_debug body) self.
  Proof.
    intro H. unfold if_debug. apply writes_bind.
    - apply frame_get_debug_mode.
    - reflexivity.
    - intro o. destruct (truthy o); [exact H | apply writes_ret].
  Qed.
End Writes.

Create HintDb quiet.
#[export] Hint Resolve writes_ret writes_raise writes_getitem writes_first writes_join
  writes_fmt_item : quiet.

(** Of the formatter's methods only [heading] writes a heading line. *)
Lemma plain_methods_quiet name f :
  name <> "heading" ->
  class_get name OutputFormatter_class = Some (Plain f) ->
  forall t, no_heading (f t) = true.
Proof.
  intros Hne Hc t. unfold OutputFormatter_class in Hc. cbn [class_get] in Hc.
  repeat match type of Hc with
         | (if String.eqb ?n ?s then _ else _) = _ =>
             destruct (String.eqb_spec n s) as [Heq | _]
         end;
    try discriminate Hc;
    try (injection Hc as <-; reflexivity).
  contradiction.
Qed.

Lemma labeled_methods_quiet name f :
  class_get name OutputFormatter_class = Some (Labeled f) ->
  forall l c b, no_heading (f l c b) = true.
Proof.
  intros Hc l c b. unfold OutputFormatter_class in Hc. cbn [class_get] in Hc.
  repeat match type of Hc with
         | (if String.eqb ?n ?s then _ else _) = _ =>
             destruct (String.eqb_spec n s) as [Heq | _]
         end;
    try discriminate Hc;
    injection Hc as <-; reflexivity.
Qed.

Lemma getattr_out_inr name dm m :
  outcome (getattr_out name (reporter dm)) = inr m ->
  class_get name OutputFormatter_class = Some m.
Proof.
  unfold getattr_out, reporter, __init__; cbn [outcome out].
  destruct (class_get name OutputFormatter_class); [| discriminate].
  intro H; injection H as ->; reflexivity.
Qed.

Lemma quiet_out_plain dm name (text : M string) :
  name <> "heading" -> frame text -> writes not_heading text (reporter dm) ->
  writes not_heading (out_plain name text) (reporter dm).
Proof.
  intros Hne Hf Ht. unfold out_plain.
  apply writes_bind_outcome; [apply frame_getattr_out | reflexivity |].
  intros m Hm. apply getattr_out_inr in Hm.
  apply writes_bind; [exact Hf | exact Ht |].
  intro t. destruct m as [f | f]; cbn [call_plain].
  - apply writes_emit. exact (plain_methods_quiet Hne Hm t).
  - apply writes_raise.
Qed.

Lemma quiet_out_labeled dm name label (contents : M string) b :
  frame contents -> writes not_heading contents (reporter dm) ->
  writes not_heading (out_labeled name label contents b) (reporter dm).
Proof.
  intros Hf Ht. unfold out_labeled.
  apply writes_bind_outcome; [apply frame_getattr_out | reflexivity |].
  intros m Hm. apply getattr_out_inr in Hm.
  apply writes_bind; [exact Hf | exact Ht |].
  intro c. destruct m as [f | f]; cbn [call_labeled].
  - apply writes_raise.
  - apply writes_emit. exact (labeled_methods_quiet _ Hm label c b).
Qed.

Lemma quiet_breakpoint self : writes not_heading breakpoint self.
Proof. reflexivity. Qed.

#[export] Hint Resolve quiet_breakpoint : quiet.

Ltac quiet_step :=
  match goal with
  | |- forall _, _ => intro
  | |- writes _ (bind _ _) _ => apply writes_bind; [solve [handler_frame] | |]
  | |- writes _ (out_plain _ _) _ =>
      apply quiet_out_plain; [discriminate | solve [handler_frame] |]
  | |- writes _ (out_labeled _ _ _ _) _ =>
      apply quiet_out_labeled; [solve [handler_frame] |]
  | |- writes _ (if_debug _) _ => apply writes_if_debug
  | |- writes _ (for_each _ _) _ => apply writes_for_each; [solve [handler_frame] |]
  | |- writes _ (if ?b then _ else _) _ => destruct b
  | |- writes _ (match ?x with _ => _ end) _ => destruct x
  | |- writes _ (let '(_, _) := ?p in _) _ => destruct p
  | |- writes _ _ _ => solve [auto with quiet]
  end.

Ltac quiet_tac := repeat quiet_step.

(** ** Properties of the handlers *)

Import OutputFormatter.
Local Open Scope list_scope.
Unset Implicit Arguments.

(** C4: an LLM-start payload with the two prompts ["a", "b"].  The call
    returns.  Without debug mode it writes the heading, the two identifier
    lines, the two warnings that only the first prompt is shown, and the
    prompt "a"; the prompt "b" is not written, the process is not suspended,
    and unless an identifier itself contains "b", nothing written contains
    "b".  In debug mode it also dumps both prompts and enters the debugger
    before the prompt "a" is written. *)
Theorem on_llm_start_two_prompts :
  forall (dm : option bool) (serialized kwargs : dict) (rid pid : PyVal),
    dict_get "run_id" kwargs = Some rid ->
    dict_get "parent_run_id" kwargs = Some pid ->
    let r := on_llm_start serialized ["a"; "b"] kwargs (reporter dm) in
    let intro_ :=
      heading (nl ++ nl ++ "> Sending text to the LLM.")
      ++ key_info_labeled "Chain ID" (py_str rid) false
      ++ key_info_labeled "Parent chain ID" (py_str pid) false
      ++ debug_error "prompts has multiple items."
      ++ debug_error "Only outputting first item in prompts." in
    outcome r = inr tt /\
    (truthy dm = false ->
       written r = intro_ ++ key_info "Text sent to LLM:" ++ llm_call "a"
       /\ existsb is_warning (written r) = true
       /\ In (Print (Color.ITALICS ++ "a" ++ Color.END) nl) (written r)
       /\ ~ In (Print (Color.ITALICS ++ "b" ++ Color.END) nl) (written r)
       /\ suspended (written r) = false
       /\ (contains "b" (py_str rid) = false ->
           contains "b" (py_str pid) = false ->
           output_contains "b" (written r) = false)) /\
    (truthy dm = true ->
       written r = intro_
                   ++ debug_info_labeled "Prompts" "['a', 'b']" false
                   ++ [Breakpoint]
                   ++ key_info "Text sent to LLM:" ++ llm_call "a"
                   ++ debug_info_labeled "Arguments" (py_str (VDict kwargs)) false
                   ++ debug_info_labeled "serialized" (py_str (VDict serialized)) false
       /\ suspended (written r) = true
       /\ output_contains "'a'" (written r) = true
       /\ output_contains "'b'" (written r) = true).
Proof.
  intros dm serialized kwargs rid pid Hr Hp r intro_.
  subst r. unfold on_llm_start. cbn [length Nat.ltb Nat.leb first].
  by_mode dm Hd; run; (split; [reflexivity |]); split; intro H; try discriminate H.
  - change (written _) with
      (intro_ ++ debug_info_labeled "Prompts" "['a', 'b']" false
              ++ [Breakpoint]
              ++ (key_info "Text sent to LLM:" ++ llm_call "a"
              ++ debug_info_labeled "Arguments" (py_str (VDict kwargs)) false
              ++ debug_info_labeled "serialized" (py_str (VDict serialized)) false)).
    split; [reflexivity |]. split; [| split].
    + rewrite !suspended_app. cbn [suspended existsb is_breakpoint].
      rewrite !orb_true_r. reflexivity.
    + apply output_contains_mid. reflexivity.
    + apply output_contains_mid. reflexivity.
  - change (written _) with (intro_ ++ key_info "Text sent to LLM:" ++ llm_call "a").
    split; [reflexivity |]. split; [reflexivity |].
    split; [apply in_or_app; right; apply in_or_app; right; left; reflexivity |].
    split.
    { apply (not_In_forallb
               (fun e => match e with
                         | Print t _ => String.prefix (Color.ITALICS ++ "b") t
                         | _ => false
                         end)); reflexivity. }
    split; [reflexivity |].
    intros Hb1 Hb2. subst intro_. rewrite !output_contains_app.
    cbn [output_contains existsb shown heading key_info_labeled debug_error key_info
           llm_call print].
    rewrite Hb1, Hb2. reflexivity.
Qed.

Lemma on_llm_start_two_prompts_witness :
  let r := on_llm_start [] ["a"; "b"] sample_kwargs (reporter (Some false)) in
  let r' := on_llm_start [] ["a"; "b"] sample_kwargs (reporter (Some true)) in
  dict_get "run_id" sample_kwargs = Some (VObj "6f1c" "UUID('6f1c')") /\
  dict_get "parent_run_id" sample_kwargs = Some VNone /\
  output_contains "b" (written r) = false /\
  suspended (written r') = true.
Proof.
  split; [reflexivity | split; [reflexivity |]].
  split.
  - apply (on_llm_start_two_prompts (Some false) [] sample_kwargs
             (VObj "6f1c" "UUID('6f1c')") VNone); reflexivity.
  - apply (on_llm_start_two_prompts (Some true) [] sample_kwargs
             (VObj "6f1c" "UUID('6f1c')") VNone); reflexivity.
Defined.

(** *** Chain end with no outputs *)

(** With an empty output mapping [on_chain_end] looks up an attribute
    [debug_errors] that the formatter does not have: the call raises after
    the heading and the identifier lines, before any warning is written. *)
Lemma on_chain_end_empty :
  forall (dm : option bool) (kwargs : dict) (rid pid : PyVal),
    dict_get "run_id" kwargs = Some rid ->
    dict_get "parent_run_id" kwargs = Some pid ->
    on_chain_end [] kwargs (reporter dm)
    = failed (reporter dm)
        (heading (nl ++ nl ++ "> Ending chain.")
         ++ key_info_labeled "Chain ID" (py_str rid) false
         ++ key_info_labeled "Parent chain ID" (py_str pid) false)
        (AttributeError "debug_errors").
Proof.
  intros dm kwargs rid pid Hr Hp.
  unfold on_chain_end. cbn [length Nat.eqb].
  run. reflexivity.
Qed.

(** C3 (fails on the code): a chain-end event with an empty output mapping
    and the usual identifiers, debug mode off.  The handler raises
    [AttributeError]; what it has written by then is the heading and the two
    identifier lines, and no warning line is among them. *)
Theorem on_chain_end_empty_outputs_raises :
  let r := on_chain_end [] sample_kwargs (reporter (Some false)) in
  outcome r = inl (AttributeError "debug_errors")
  /\ written r = heading (nl ++ nl ++ "> Ending chain.")
                 ++ key_info_labeled "Chain ID" "6f1c" false
                 ++ key_info_labeled "Parent chain ID" "None" false
  /\ existsb is_warning (written r) = false
  /\ output_contains "No chain outputs." (written r) = false.
Proof.
  cbv zeta.
  rewrite (on_chain_end_empty (Some false) sample_kwargs
             (VObj "6f1c" "UUID('6f1c')") VNone eq_refl eq_refl).
  repeat split.
Qed.

(** C10: [on_tool_error] is [on_chain_error] under another name: for the
    same error the two calls coincide, whatever the sink; with the console
    formatter both begin with the bold red line "Chain Error". *)
Theorem on_tool_error_prints_chain_error :
  forall (self : AllChainDetails) (dm : option bool) (error : PyVal)
         (kwargs kwargs' : dict),
    on_tool_error error kwargs self = on_chain_error error kwargs' self
    /\ on_tool_error error kwargs (reporter dm)
       = ok (reporter dm)
           (debug_error "Chain Error"
            ++ debug_info_labeled "Error object" (py_str error) false
            ++ (if truthy dm then [Breakpoint] else []))
           tt
    /\ debug_error "Chain Error"
       = [Print (Color.BOLD ++ Color.RED ++ "Chain Error" ++ Color.END) nl].
Proof.
  intros self dm error kwargs kwargs'.
  split; [reflexivity |]. split; [| reflexivity].
  unfold on_tool_error. by_mode dm Hd; run; reflexivity.
Qed.

(** C6: [on_retriever_end].  With no documents the handler writes
    "Found 0 documents." and then a warning.  With two documents it writes
    "Found 2 documents." and then the section of document 0 followed by the
    section of document 1, and these are the only two "Document number"
    lines. *)
Theorem on_retriever_end_documents :
  forall (dm : option bool) (run_id parent_run_id : PyVal) (kwargs : dict),
    let intro_ :=
      heading (nl ++ nl ++ "> Retriever finished.")
      ++ key_info_labeled "Chain ID" (py_str run_id) false
      ++ key_info_labeled "Parent chain ID" (py_str parent_run_id) false in
    on_retriever_end [] run_id parent_run_id kwargs (reporter dm)
    = ok (reporter dm)
        (intro_ ++ key_info "Found 0 documents."
                ++ debug_error "No documents found."
                ++ (if truthy dm then [Breakpoint] else []))
        tt
    /\ existsb is_warning (debug_error "No documents found.") = true
    /\ forall d0 d1 : Document,
         let r := on_retriever_end [d0; d1] run_id parent_run_id kwargs (reporter dm) in
         r = ok (reporter dm)
               (intro_ ++ key_info "Found 2 documents."
                       ++ document_section 0 2 d0
                       ++ document_section 1 2 d1)
               tt
         /\ length (filter is_document_number (written r)) = 2.
Proof.
  intros dm run_id parent_run_id kwargs intro_. subst intro_.
  split; [| split; [reflexivity |]].
  - unfold on_retriever_end. cbn [length Nat.eqb].
    by_mode dm Hd; run; reflexivity.
  - intros d0 d1 r.
    assert (Hrun : r = ok (reporter dm)
               ((heading (nl ++ nl ++ "> Retriever finished.")
                 ++ key_info_labeled "Chain ID" (py_str run_id) false
                 ++ key_info_labeled "Parent chain ID" (py_str parent_run_id) false)
                ++ key_info "Found 2 documents."
                ++ document_section 0 2 d0 ++ document_section 1 2 d1) tt).
    { subst r. unfold on_retriever_end.
      cbn [length Nat.eqb enumerate combine seq for_each].
      run. reflexivity. }
    split; [exact Hrun |]. rewrite Hrun. reflexivity.
Qed.

(** *** Heading and identifiers *)

Lemma ids_in_some title kwargs t rid pid :
  ids_in title kwargs = Some (t, rid, pid) ->
  exists r p, dict_get "run_id" kwargs = Some r
              /\ dict_get "parent_run_id" kwargs = Some p
              /\ t = title /\ rid = py_str r /\ pid = py_str p.
Proof.
  unfold ids_in.
  destruct (dict_get "run_id" kwargs) as [r |]; [| discriminate].
  destruct (dict_get "parent_run_id" kwargs) as [p |]; [| discriminate].
  intro H. injection H as <- <- <-. exists r, p. repeat split.
Qed.

Lemma leads_with_identifiers dm ev title rid pid :
  leads ev = Some (title, rid, pid) ->
  exists rest,
    written (handle ev (reporter dm))
    = heading (nl ++ nl ++ title)
      ++ key_info_labeled "Chain ID" rid false
      ++ key_info_labeled "Parent chain ID" pid false
      ++ rest
    /\ no_heading rest = true.
Proof.
  destruct ev; cbn [leads handle]; intro H; try discriminate H;
    try (apply ids_in_some in H; destruct H as (r & p & Hr & Hp & -> & -> & ->));
    try (injection H as <- <- <-);
    unfold on_llm_start, on_llm_end, on_chain_end, on_tool_start, on_tool_end,
      on_agent_action, on_agent_finish, on_retriever_start, on_retriever_end;
    do 3 run_step;
    (eexists; split; [reflexivity |]);
    match goal with
    | |- no_heading (written (?m ?s)) = true => change (writes not_heading m s)
    end;
    unfold getattr_method; quiet_tac.
Qed.

(** C2 (as stated, fails): the output of [on_llm_error] for an event with
    run identifier 6f1c carries no identifier line at all: it is the bold
    red error line and the error object.  Nothing written mentions
    "Chain ID" or the identifier, no line is a heading line, and the output
    does not have the shape heading, run identifier, parent identifier. *)
Lemma on_llm_error_prints_no_identifiers :
  let r := on_llm_error (VObj "boom" "RuntimeError('boom')") sample_kwargs
             (reporter (Some false)) in
  written r = debug_error "LLM Error" ++ debug_info_labeled "Error object" "boom" false
  /\ output_contains "Chain ID" (written r) = false
  /\ output_contains "6f1c" (written r) = false
  /\ existsb is_heading (written r) = false
  /\ ~ (exists title rid pid rest,
          written r = heading (nl ++ nl ++ title)
                      ++ key_info_labeled "Chain ID" rid false
                      ++ key_info_labeled "Parent chain ID" pid false
                      ++ rest).
Proof.
  cbv zeta. repeat (split; [reflexivity |]).
  intros (title & rid & pid & rest & H).
  cbv in H. discriminate H.
Qed.

(** *** Raising and returning *)

Lemma has_ids_get kwargs :
  has_ids kwargs = true ->
  exists rid pid, dict_get "run_id" kwargs = Some rid
                  /\ dict_get "parent_run_id" kwargs = Some pid.
Proof.
  unfold has_ids. intro H. apply andb_prop in H. destruct H as [Hr Hp].
  destruct (dict_has_get _ _ Hr) as [rid Hrid].
  destruct (dict_has_get _ _ Hp) as [pid Hpid].
  exists rid, pid. split; assumption.
Qed.

Lemma dict_get_none_has k d : dict_get k d = None -> dict_has k d = false.
Proof.
  intro H. destruct (dict_has k d) eqn:Hh; [| reflexivity].
  destruct (dict_has_get _ _ Hh) as [v Hv]. congruence.
Qed.

Lemma run_output_lines dm outputs :
  exists tr,
    for_each (keys outputs)
      (fun key : string =>
         out_labeled "key_info_labeled" ("Output " ++ key) (fmt_item outputs key) true)
      (reporter dm)
    = ok (reporter dm) tr tt.
Proof.
  exists (flat_map
            (fun key => match dict_get key outputs with
                        | Some v => key_info_labeled ("Output " ++ key) (py_str v) true
                        | None => []
                        end)
            (keys outputs)).
  apply run_for_each. intros key Hin.
  assert (Hhas : dict_has key outputs = true).
  { unfold dict_has. apply existsb_exists. exists key. split; [exact Hin |].
    apply String.eqb_refl. }
  destruct (dict_has_get _ _ Hhas) as [v Hv]. rewrite Hv.
  apply run_labeled_item; [reflexivity | exact Hv].
Qed.

Lemma run_document_sections dm total (docs : list (nat * Document)) :
  for_each docs
    (fun nd : nat * Document =>
       let '(doc_num, doc) := nd in
       out_plain "key_info" (ret "---------------------------------------------------") ;;
       out_plain "key_info"
         (ret ("Document number " ++ str_of_nat doc_num ++ " of "
                ++ str_of_nat total)%string) ;;
       out_labeled "key_info_labeled" "Metadata" (ret (py_str (VDict (metadata doc))))
         false ;;
       out_plain "key_info" (ret "Document contents:") ;;
       out_plain "tool_output" (ret (page_content doc)))%handler
    (reporter dm)
  = ok (reporter dm)
      (flat_map (fun nd => document_section (fst nd) total (snd nd)) docs) tt.
Proof.
  apply run_for_each. intros [n doc] _. cbn [fst snd]. run. reflexivity.
Qed.

Ltac finish := eexists; reflexivity.

(** On a well-formed payload every handler returns. *)
Lemma handlers_return_on_well_formed dm ev :
  well_formed ev = true ->
  exists tr, handle ev (reporter dm) = ok (reporter dm) tr tt.
Proof.
  destruct ev; cbn [well_formed handle]; intro H;
    repeat match goal with
           | H : _ && _ = true |- _ => apply andb_prop in H; destruct H
           | H : has_ids _ = true |- _ =>
               apply has_ids_get in H; destruct H as (rid & pid & Hr & Hp)
           | H : dict_has "name" _ = true |- _ =>
               apply dict_has_get in H; destruct H as [name Hn]
           end.
  - (* on_text *)
    unfold on_text. by_mode dm Hd; run; finish.
  - (* on_llm_start *)
    unfold on_llm_start. destruct prompts as [| p1 [| p2 ps]]; [discriminate | |];
      cbn [length Nat.ltb Nat.leb first]; by_mode dm Hd; run; finish.
  - (* on_llm_end *)
    unfold on_llm_end. destruct response as [gens rs]. cbn [generations response_str] in *.
    destruct gens as [| [| g g0] [| g1 gs]]; try discriminate;
      cbn [length Nat.ltb Nat.leb first]; by_mode dm Hd; run; finish.
  - (* on_chain_start *)
    unfold on_chain_start. destruct inputs as [| kv inputs]; [discriminate |].
    cbn [length Nat.ltb Nat.leb].
    unfold joinable_id in *.
    destruct (dict_get "id" serialized) as [v |] eqn:Hv.
    + destruct (iter_strs v) as [comps |] eqn:Hc; [| discriminate].
      rewrite (dict_get_has _ _ Hv). cbn [negb].
      run. erewrite bind_getitem by exact Hv. unfold join. rewrite Hc.
      by_mode dm Hd; run; (erewrite bind_ok by apply run_input_lines); run; finish.
    + rewrite (dict_get_none_has _ _ Hv). cbn [negb].
      by_mode dm Hd; run; (erewrite bind_ok by apply run_input_lines); run; finish.
  - (* on_chain_end *)
    unfold on_chain_end. destruct outputs as [| kv outputs]; [discriminate |].
    cbn [length Nat.eqb].
    destruct (run_output_lines dm (kv :: outputs)) as [lines Hlines].
    by_mode dm Hd; run; (erewrite bind_ok by exact Hlines); run; finish.
  - (* on_tool_start *)
    unfold on_tool_start. by_mode dm Hd; run; finish.
  - (* on_tool_end *)
    unfold on_tool_end.
    cbn [negb orb existsb on_tool_end_locals String.eqb Ascii.eqb Bool.eqb].
    by_mode dm Hd; run; finish.
  - (* on_agent_action *)
    unfold on_agent_action. destruct (action_log action); by_mode dm Hd; run; finish.
  - (* on_agent_finish *)
    unfold on_agent_finish. destruct (finish_log finish); by_mode dm Hd; run; finish.
  - unfold on_llm_error. by_mode dm Hd; run; finish.
  - unfold on_chain_error. by_mode dm Hd; run; finish.
  - unfold on_tool_error. by_mode dm Hd; run; finish.
  - (* on_retriever_start *)
    unfold on_retriever_start. unfold joinable_id in *.
    destruct (dict_get "id" serialized) as [v |] eqn:Hv.
    + destruct (iter_strs v) as [comps |] eqn:Hc; [| discriminate].
      rewrite (dict_get_has _ _ Hv). cbn [negb].
      run. erewrite bind_getitem by exact Hv. unfold join. rewrite Hc.
      by_mode dm Hd; run; finish.
    + rewrite (dict_get_none_has _ _ Hv). cbn [negb].
      by_mode dm Hd; run; finish.
  - (* on_retriever_end *)
    unfold on_retriever_end. destruct documents as [| d ds].
    + cbn [length Nat.eqb]. by_mode dm Hd; run; finish.
    + cbn [length Nat.eqb]. run. rewrite run_document_sections. finish.
Qed.

Lemma outcome_bind_inr A B (m : M A) (k : A -> M B) self b :
  outcome (bind m k self) = inr b ->
  exists a, outcome (m self) = inr a
            /\ outcome (k a (self_after (m self))) = inr b.
Proof.
  unfold bind. destruct (outcome (m self)) as [e | a]; cbn [outcome].
  - discriminate.
  - intro H. exists a. split; [reflexivity | exact H].
Qed.

Lemma returns_bind_inv A B (m : M A) (k : A -> M B) self :
  returns (bind m k self) ->
  exists a, outcome (m self) = inr a /\ returns (k a (self_after (m self))).
Proof.
  intros [b Hb]. apply outcome_bind_inr in Hb. destruct Hb as (a & Ha & Hk).
  exists a. split; [exact Ha | exists b; exact Hk].
Qed.

Ltac skip_statement H :=
  apply returns_bind_inv in H; destruct H as (? & _ & H); cbv beta in H.

(** Whatever the sink, [on_chain_start] does not return on empty inputs:
    [self.out.debug.error] is an attribute of an attribute, which no
    formatting function has. *)
Lemma on_chain_start_empty_never_returns self serialized kwargs :
  ~ returns (on_chain_start serialized [] kwargs self).
Proof.
  intro H. unfold on_chain_start in H. cbn [length Nat.ltb Nat.leb] in H.
  do 5 skip_statement H.
  apply returns_bind_inv in H. destruct H as (u & H & _).
  apply outcome_bind_inr in H. destruct H as (u' & H & _).
  apply outcome_bind_inr in H. destruct H as (d & _ & H).
  apply outcome_bind_inr in H. destruct H as (e & H & _).
  discriminate H.
Qed.

(** Whatever the sink, [on_chain_end] does not return on empty outputs: a
    sink without [debug_errors] makes the call raise there, and with one the
    loop reads the local [outputs_keys], which was never bound. *)
Lemma on_chain_end_empty_never_returns self kwargs :
  ~ returns (on_chain_end [] kwargs self).
Proof.
  intro H. unfold on_chain_end in H. cbn [length Nat.eqb] in H.
  do 3 skip_statement H.
  apply returns_bind_inv in H. destruct H as (ks & Hks & H).
  apply outcome_bind_inr in Hks. destruct Hks as (u & _ & Hks).
  apply outcome_bind_inr in Hks. destruct Hks as (u' & _ & Hks).
  injection Hks as <-.
  apply returns_bind_inv in H. destruct H as (l & H & _).
  discriminate H.
Qed.

(** C1 (fails on the code): a chain-start event with an empty input mapping,
    the class identifier and the usual run identifiers, debug mode off.  The
    handler raises [AttributeError]: the formatter has no attribute [debug].
    By then it has written the heading, the class line and the identifier
    lines.  No sink makes the handler return on empty inputs, and the same
    holds for [on_chain_end] on empty outputs. *)
Theorem on_chain_start_empty_inputs_raises :
  let serialized := [("id", str_list ["langchain"; "chains"; "llm"; "LLMChain"])] in
  let r := on_chain_start serialized [] sample_kwargs (reporter (Some false)) in
  outcome r = inl (AttributeError "debug")
  /\ written r = heading (nl ++ nl ++ "> Starting new chain.")
                 ++ key_info_labeled "Chain class" "langchain.chains.llm.LLMChain" false
                 ++ key_info_labeled "Chain ID" "6f1c" false
                 ++ key_info_labeled "Parent chain ID" "None" false
  /\ class_get "debug" OutputFormatter_class = None
  /\ (forall self serialized kwargs,
        ~ returns (on_chain_start serialized [] kwargs self))
  /\ (forall self kwargs, ~ returns (on_chain_end [] kwargs self)).
Proof.
  cbv zeta. repeat (split; [reflexivity |]). split.
  - intros. apply on_chain_start_empty_never_returns.
  - intros. apply on_chain_end_empty_never_returns.
Qed.

(** ** Further properties of the handlers *)

(** X1: a payload without [run_id], or with [run_id] but without
    [parent_run_id].  Each of the seven handlers that read the identifiers
    from [kwargs] right after the heading raises [KeyError] for the missing
    key; it has then written the heading only, respectively the heading and
    the run identifier line. *)
Theorem missing_identifier_raises :
  forall (dm : option bool) (ev : event) (title : string) (kwargs : dict),
    opening ev = Some (title, kwargs) ->
    (dict_get "run_id" kwargs = None ->
       handle ev (reporter dm)
       = failed (reporter dm) (heading (nl ++ nl ++ title)) (KeyError "run_id"))
    /\ (forall rid,
          dict_get "run_id" kwargs = Some rid ->
          dict_get "parent_run_id" kwargs = None ->
          handle ev (reporter dm)
          = failed (reporter dm)
              (heading (nl ++ nl ++ title)
               ++ key_info_labeled "Chain ID" (py_str rid) false)
              (KeyError "parent_run_id")).
Proof.
  intros dm ev title kwargs Hev.
  destruct ev; cbn [opening] in Hev; try discriminate Hev;
    injection Hev as <- <-; cbn [handle];
    unfold on_llm_start, on_llm_end, on_chain_end, on_tool_start, on_tool_end,
      on_agent_action, on_agent_finish;
    (split; [intro Hr | intros rid Hr Hp]); run; reflexivity.
Qed.

Lemma missing_identifier_raises_witness :
  opening (ToolStart [] "weather" []) = Some ("> Using tool.", [])
  /\ dict_get "run_id" [] = None
  /\ handle (ToolStart [] "weather" []) (reporter (Some false))
     = failed (reporter (Some false)) (heading (nl ++ nl ++ "> Using tool."))
         (KeyError "run_id").
Proof.
  split; [reflexivity | split; [reflexivity |]].
  exact (proj1 (missing_identifier_raises (Some false) (ToolStart [] "weather" [])
                  "> Using tool." [] eq_refl) eq_refl).
Defined.

Lemma fail_plain_arg dm name m (text : M string) e :
  class_get name OutputFormatter_class = Some m ->
  text (reporter dm) = failed (reporter dm) [] e ->
  out_plain name text (reporter dm) = failed (reporter dm) [] e.
Proof.
  intros Hc Ht. unfold out_plain.
  assert (Hg : getattr_out name (reporter dm) = ok (reporter dm) [] m).
  { unfold getattr_out, reporter, __init__; cbn [out]. rewrite Hc. reflexivity. }
  rewrite (bind_ok _ _ Hg), after_nil.
  apply bind_failed. exact Ht.
Qed.

(** X3: indexing an empty list.  With the identifiers present,
    [on_llm_start] on an empty prompt list and [on_llm_end] on a response
    with no generations, or whose only generation list is empty, raise
    [IndexError]; the heading, the identifier lines and the line announcing
    the text have been written by then. *)
Theorem empty_list_raises_index_error :
  forall (dm : option bool) (kwargs : dict) (rid pid : PyVal),
    dict_get "run_id" kwargs = Some rid ->
    dict_get "parent_run_id" kwargs = Some pid ->
    (forall serialized,
       on_llm_start serialized [] kwargs (reporter dm)
       = failed (reporter dm)
           (heading (nl ++ nl ++ "> Sending text to the LLM.")
            ++ id_lines rid pid ++ key_info "Text sent to LLM:")
           IndexError)
    /\ (forall response,
          generations response = [] \/ generations response = [[]] ->
          on_llm_end response kwargs (reporter dm)
          = failed (reporter dm)
              (heading (nl ++ nl ++ "> Received response from LLM.")
               ++ id_lines rid pid ++ key_info "Text received from LLM:")
              IndexError).
Proof.
  intros dm kwargs rid pid Hr Hp. split.
  - intro serialized. unfold on_llm_start. cbn [length Nat.ltb Nat.leb].
    run. erewrite bind_failed by (eapply fail_plain_arg; reflexivity).
    reflexivity.
  - intros response Hg. unfold on_llm_end.
    destruct Hg as [Hg | Hg]; rewrite Hg; cbn [length Nat.ltb Nat.leb];
      run; (erewrite bind_failed by (eapply fail_plain_arg; reflexivity));
      reflexivity.
Qed.

Lemma empty_list_raises_index_error_witness :
  dict_get "run_id" sample_kwargs = Some (VObj "6f1c" "UUID('6f1c')")
  /\ dict_get "parent_run_id" sample_kwargs = Some VNone
  /\ on_llm_start [] [] sample_kwargs (reporter (Some false))
     = failed (reporter (Some false))
         (heading (nl ++ nl ++ "> Sending text to the LLM.")
          ++ id_lines (VObj "6f1c" "UUID('6f1c')") VNone
          ++ key_info "Text sent to LLM:")
         IndexError.
Proof.
  split; [reflexivity | split; [reflexivity |]].
  exact (proj1 (empty_list_raises_index_error (Some false) sample_kwargs
                  (VObj "6f1c" "UUID('6f1c')") VNone eq_refl eq_refl) []).
Defined.

(** X5: outside debug mode the prompts after the first, and the generations
    after the first, never reach the output: two LLM-start payloads that
    agree on the first prompt and both have further prompts give the same
    result, whatever [kwargs] holds, and so do two LLM-end payloads that
    agree on the text of the first generation and both have further
    generation lists. *)
Theorem suppressed_items_do_not_show :
  forall (dm : option bool) (kwargs : dict),
    truthy dm = false ->
    (forall serialized p more more',
       more <> [] -> more' <> [] ->
       on_llm_start serialized (p :: more) kwargs (reporter dm)
       = on_llm_start serialized (p :: more') kwargs (reporter dm))
    /\ (forall response response' g g_more g' g_more' more more',
          generations response = (g :: g_more) :: more ->
          generations response' = (g' :: g_more') :: more' ->
          text g = text g' ->
          more <> [] -> more' <> [] ->
          on_llm_end response kwargs (reporter dm)
          = on_llm_end response' kwargs (reporter dm)).
Proof.
  intros dm kwargs Hd. split.
  - intros serialized p more more' Hm Hm'.
    destruct more as [| p2 more]; [contradiction |].
    destruct more' as [| p2' more']; [contradiction |].
    unfold on_llm_start. cbn [length Nat.ltb Nat.leb first].
    destruct (dict_get "run_id" kwargs) eqn:Hr;
      destruct (dict_get "parent_run_id" kwargs) eqn:Hp; run; reflexivity.
  - intros response response' g g_more g' g_more' more more' Hg Hg' Ht Hm Hm'.
    destruct more as [| g1 more]; [contradiction |].
    destruct more' as [| g1' more']; [contradiction |].
    unfold on_llm_end. rewrite Hg, Hg'. cbn [length Nat.ltb Nat.leb first].
    destruct (dict_get "run_id" kwargs) eqn:Hr;
      destruct (dict_get "parent_run_id" kwargs) eqn:Hp; run;
      rewrite ?Ht; reflexivity.
Qed.

Lemma suppressed_items_do_not_show_witness :
  truthy (Some false) = false
  /\ ["b"] <> [] /\ ["secret"; "other"] <> []
  /\ on_llm_start [] ["a"; "b"] sample_kwargs (reporter (Some false))
     = on_llm_start [] ["a"; "secret"; "other"] sample_kwargs (reporter (Some false)).
Proof.
  split; [reflexivity | split; [discriminate | split; [discriminate |]]].
  apply (proj1 (suppressed_items_do_not_show (Some false) sample_kwargs eq_refl));
    discriminate.
Defined.

Lemma dict_get_nodup (d : dict) k v :
  NoDup (keys d) -> In (k, v) d -> dict_get k d = Some v.
Proof.
  unfold keys. induction d as [| [k' v'] r IH]; intros Hnd Hin; [contradiction |].
  cbn [map fst] in Hnd. inversion Hnd as [| ? ? Hnotin Hnd']; subst.
  cbn [dict_get]. destruct Hin as [Heq | Hin].
  - injection Heq as -> ->. rewrite String.eqb_refl. reflexivity.
  - destruct (String.eqb_spec k k') as [-> | _].
    + exfalso. apply Hnotin. apply (in_map fst) in Hin. exact Hin.
    + apply IH; assumption.
Qed.

Lemma run_output_lines_by_binding dm (outputs part : dict) :
  (forall k v, In (k, v) part -> dict_get k outputs = Some v) ->
  for_each (keys part)
    (fun key : string =>
       out_labeled "key_info_labeled" ("Output " ++ key) (fmt_item outputs key) true)
    (reporter dm)
  = ok (reporter dm) (flat_map output_line part) tt.
Proof.
  induction part as [| [k v] r IH]; intro H; cbn [keys map fst for_each flat_map].
  - reflexivity.
  - erewrite bind_ok
      by (apply run_labeled_item; [reflexivity | apply H; left; reflexivity]).
    fold (keys r). rewrite IH by (intros; apply H; right; assumption).
    reflexivity.
Qed.

(** *** The debugger is entered in debug mode only *)

Lemma plain_methods_calm name f :
  class_get name OutputFormatter_class = Some (Plain f) ->
  forall t, forallb not_breakpoint (f t) = true.
Proof.
  intros Hc t. unfold OutputFormatter_class in Hc. cbn [class_get] in Hc.
  repeat match type of Hc with
         | (if String.eqb ?n ?s then _ else _) = _ =>
             destruct (String.eqb_spec n s) as [Heq | _]
         end;
    try discriminate Hc;
    injection Hc as <-; reflexivity.
Qed.

Lemma labeled_methods_calm name f :
  class_get name OutputFormatter_class = Some (Labeled f) ->
  forall l c b, forallb not_breakpoint (f l c b) = true.
Proof.
  intros Hc l c b. unfold OutputFormatter_class in Hc. cbn [class_get] in Hc.
  repeat match type of Hc with
         | (if String.eqb ?n ?s then _ else _) = _ =>
             destruct (String.eqb_spec n s) as [Heq | _]
         end;
    try discriminate Hc;
    injection Hc as <-; reflexivity.
Qed.

Lemma calm_out_plain dm name (text : M string) :
  frame text -> writes not_breakpoint text (reporter dm) ->
  writes not_breakpoint (out_plain name text) (reporter dm).
Proof.
  intros Hf Ht. unfold out_plain.
  apply writes_bind_outcome; [apply frame_getattr_out | reflexivity |].
  intros m Hm. apply getattr_out_inr in Hm.
  apply writes_bind; [exact Hf | exact Ht |].
  intro t. destruct m as [f | f]; cbn [call_plain].
  - apply writes_emit. exact (plain_methods_calm name f Hm t).
  - apply writes_raise.
Qed.

Lemma calm_out_labeled dm name label (contents : M string) b :
  frame contents -> writes not_breakpoint contents (reporter dm) ->
  writes not_breakpoint (out_labeled name label contents b) (reporter dm).
Proof.
  intros Hf Ht. unfold out_labeled.
  apply writes_bind_outcome; [apply frame_getattr_out | reflexivity |].
  intros m Hm. apply getattr_out_inr in Hm.
  apply writes_bind; [exact Hf | exact Ht |].
  intro c. destruct m as [f | f]; cbn [call_labeled].
  - apply writes_raise.
  - apply writes_emit. exact (labeled_methods_calm name f Hm label c b).
Qed.

Lemma writes_if_debug_off P dm body :
  truthy dm = false -> writes P (if_debug body) (reporter dm).
Proof. intro H. unfold writes. rewrite run_if_debug_off by exact H. reflexivity. Qed.

Lemma writes_getattr_out P name self : writes P (getattr_out name) self.
Proof. reflexivity. Qed.

(** [self.out.debug.error(...)]: the second lookup raises, nothing is
    called. *)
Lemma writes_attr_of_attr P self name name' text :
  writes P
    (d <- getattr_out name ;; e <- getattr_method d name' ;; call_plain e text)%handler
    self.
Proof.
  apply writes_bind; [apply frame_getattr_out | apply writes_getattr_out |].
  intro d. apply writes_bind_outcome.
  - unfold getattr_method. apply frame_raise.
  - apply writes_raise.
  - intros e He. discriminate He.
Qed.

Ltac calm_step Hd :=
  match goal with
  | |- forall _, _ => intro
  | |- writes _ (if_debug _) _ => apply writes_if_debug_off; exact Hd
  | |- writes _ (bind (getattr_out _) _) _ => apply writes_attr_of_attr
  | |- writes _ (bind _ _) _ =>
      apply writes_bind; [solve [unfold getattr_method; handler_frame] | |]
  | |- writes _ (out_plain _ _) _ => apply calm_out_plain; [solve [handler_frame] |]
  | |- writes _ (out_labeled _ _ _ _) _ =>
      apply calm_out_labeled; [solve [handler_frame] |]
  | |- writes _ (for_each _ _) _ => apply writes_for_each; [solve [handler_frame] |]
  | |- writes _ (if ?b then _ else _) _ => destruct b
  | |- writes _ (match ?x with _ => _ end) _ => destruct x
  | |- writes _ (let '(_, _) := ?p in _) _ => destruct p
  | |- writes _ _ _ => solve [auto with quiet]
  end.

Lemma not_suspended tr : forallb not_breakpoint tr = true -> suspended tr = false.
Proof.
  unfold suspended, not_breakpoint. induction tr as [| e r IH]; cbn [forallb existsb].
  - reflexivity.
  - intro H. apply andb_prop in H. destruct H as [He Hr].
    rewrite (IH Hr). destruct (is_breakpoint e); [discriminate He | reflexivity].
Qed.

(** X9: with debug mode off no handler ever enters the debugger, whatever
    the event and however malformed its payload; in particular the handler
    built with the defaults, [AllChainDetails()], never suspends the
    pipeline. *)
Theorem no_breakpoint_outside_debug_mode :
  forall (dm : option bool) (ev : event),
    truthy dm = false ->
    suspended (written (handle ev (reporter dm))) = false.
Proof.
  intros dm ev Hd. apply not_suspended.
  change (writes not_breakpoint (handle ev) (reporter dm)).
  destruct ev; cbn [handle];
    unfold on_text, on_llm_start, on_llm_end, on_chain_start, on_chain_end,
      on_tool_start, on_tool_end, on_agent_action, on_agent_finish, on_llm_error,
      on_chain_error, on_tool_error, on_retriever_start, on_retriever_end;
    repeat calm_step Hd.
Qed.

Lemma no_breakpoint_outside_debug_mode_witness :
  truthy (Some false) = false
  /\ reporter (Some false) = __init__ (Some false) OutputFormatter_class
  /\ suspended (written (handle (ChainStart [] [] []) (reporter (Some false)))) = false.
Proof.
  split; [reflexivity | split; [reflexivity |]].
  exact (no_breakpoint_outside_debug_mode (Some false) (ChainStart [] [] []) eq_refl).
Defined.

(** X10: a [serialized["id"]] that cannot be joined (a value that is not an
    iterable of strings) makes [on_chain_start] and [on_retriever_start]
    raise [TypeError]: the former right after its heading, the latter after
    the heading, the identifier lines and the tags line. *)
Theorem unjoinable_id_raises_type_error :
  forall (dm : option bool) (serialized : dict) (v : PyVal),
    dict_get "id" serialized = Some v ->
    iter_strs v = None ->
    (forall inputs kwargs,
       on_chain_start serialized inputs kwargs (reporter dm)
       = failed (reporter dm) (heading (nl ++ nl ++ "> Starting new chain."))
           TypeError)
    /\ (forall query run_id parent_run_id tags metadata kwargs,
          on_retriever_start serialized query run_id parent_run_id tags metadata kwargs
            (reporter dm)
          = failed (reporter dm)
              (heading (nl ++ nl ++ "> Querying retriever.")
               ++ id_lines run_id parent_run_id
               ++ key_info_labeled "Tags" (py_str (opt_str_list tags)) false)
              TypeError).
Proof.
  intros dm serialized v Hv Hi. pose proof (dict_get_has _ _ Hv) as Hhas. split.
  - intros inputs kwargs. unfold on_chain_start. rewrite Hhas. cbn [negb].
    run. erewrite bind_getitem by exact Hv. unfold join. rewrite Hi.
    run. reflexivity.
  - intros. unfold on_retriever_start. rewrite Hhas. cbn [negb].
    run. erewrite bind_getitem by exact Hv. unfold join. rewrite Hi.
    run. reflexivity.
Qed.

Lemma unjoinable_id_raises_type_error_witness :
  dict_get "id" [("id", VList [VStr "langchain"; VNone])]
  = Some (VList [VStr "langchain"; VNone])
  /\ iter_strs (VList [VStr "langchain"; VNone]) = None
  /\ on_chain_start [("id", VList [VStr "langchain"; VNone])] [] sample_kwargs
       (reporter (Some false))
     = failed (reporter (Some false)) (heading (nl ++ nl ++ "> Starting new chain."))
         TypeError.
Proof.
  split; [reflexivity | split; [reflexivity |]].
  exact (proj1 (unjoinable_id_raises_type_error (Some false)
                  [("id", VList [VStr "langchain"; VNone])]
                  (VList [VStr "langchain"; VNone]) eq_refl eq_refl)
           [] sample_kwargs).
Defined.

(** *** Retrieved documents *)

Lemma enumerate_from A (l : list A) start :
  map fst (combine (seq start (length l)) l) = seq start (length l)
  /\ map snd (combine (seq start (length l)) l) = l.
Proof.
  revert start. induction l as [| x r IH]; intro start; cbn [length seq combine map].
  - split; reflexivity.
  - destruct (IH (S start)) as [H1 H2]. rewrite H1, H2. split; reflexivity.
Qed.

Lemma prefix_append (a b : string) : String.prefix a (a ++ b) = true.
Proof.
  induction a as [| c a IH]; cbn [String.append String.prefix].
  - destruct b; reflexivity.
  - destruct (ascii_dec c c) as [_ | Hc]; [exact IH | contradiction].
Qed.

Lemma is_document_number_line (x e : string) :
  is_document_number
    (Print (Color.BOLD ++ Color.DARKCYAN ++ ("Document number " ++ x) ++ Color.END) e)
  = true.
Proof.
  change (Color.BOLD ++ Color.DARKCYAN ++ ("Document number " ++ x) ++ Color.END)%string
    with ((Color.BOLD ++ Color.DARKCYAN ++ "Document number ") ++ (x ++ Color.END))%string.
  apply prefix_append.
Qed.

Lemma document_section_one_number n total d :
  length (filter is_document_number (document_section n total d)) = 1.
Proof.
  unfold document_section. rewrite !filter_app, !length_app.
  assert (H2 : filter is_document_number
                 (key_info ("Document number " ++ str_of_nat n ++ " of "
                              ++ str_of_nat total))
               = key_info ("Document number " ++ str_of_nat n ++ " of "
                             ++ str_of_nat total)).
  { unfold key_info, print. cbn [filter]. rewrite is_document_number_line.
    reflexivity. }
  rewrite H2. reflexivity.
Qed.

Lemma document_sections_count total (docs : list (nat * Document)) :
  length (filter is_document_number
            (flat_map (fun nd => document_section (fst nd) total (snd nd)) docs))
  = length docs.
Proof.
  induction docs as [| [n d] r IH]; cbn [flat_map length]; [reflexivity |].
  rewrite filter_app, length_app, IH. cbn [fst snd].
  rewrite document_section_one_number. reflexivity.
Qed.

(** X11: [on_retriever_end] on any non-empty list of documents returns.
    After the heading and the identifier lines it writes "Found n
    documents." and then one section per document, numbered 0, 1, ... in the
    order of the list; the output has exactly n "Document number" lines and
    no warning. *)
Theorem on_retriever_end_sections :
  forall (dm : option bool) (documents : list Document)
         (run_id parent_run_id : PyVal) (kwargs : dict),
    documents <> [] ->
    let n := length documents in
    let r := on_retriever_end documents run_id parent_run_id kwargs (reporter dm) in
    r = ok (reporter dm)
          (heading (nl ++ nl ++ "> Retriever finished.")
           ++ id_lines run_id parent_run_id
           ++ key_info ("Found " ++ str_of_nat n ++ " documents.")
           ++ flat_map (fun nd => document_section (fst nd) n (snd nd))
                (enumerate documents))
          tt
    /\ map fst (enumerate documents) = seq 0 n
    /\ map snd (enumerate documents) = documents
    /\ length (filter is_document_number (written r)) = n
    /\ existsb is_warning (written r) = false.
Proof.
  intros dm documents run_id parent_run_id kwargs Hne n r.
  assert (Hrun : r = ok (reporter dm)
          ((heading (nl ++ nl ++ "> Retriever finished.")
            ++ id_lines run_id parent_run_id
            ++ key_info ("Found " ++ str_of_nat n ++ " documents."))
           ++ flat_map (fun nd => document_section (fst nd) n (snd nd))
                (enumerate documents))
          tt).
  { subst r n. unfold on_retriever_end.
    assert (Hlen : (length documents =? 0)%nat = false)
      by (destruct documents; [contradiction | reflexivity]).
    rewrite Hlen. run. rewrite run_document_sections. reflexivity. }
  split; [rewrite Hrun; reflexivity |].
  split; [apply enumerate_from |]. split; [apply enumerate_from |].
  rewrite Hrun. unfold ok. cbn [written]. split.
  - rewrite filter_app, length_app, document_sections_count.
    unfold enumerate. rewrite length_combine, length_seq, Nat.min_id. reflexivity.
  - rewrite existsb_app. rewrite orb_false_iff. split; [reflexivity |].
    generalize (enumerate documents). intro l.
    induction l as [| [k d] l IH]; cbn [flat_map]; [reflexivity |].
    rewrite existsb_app, IH. reflexivity.
Qed.

Lemma on_retriever_end_sections_witness :
  let docs := [ {| page_content := "Cocoa."; metadata := [] |};
                {| page_content := "Berries."; metadata := [] |};
                {| page_content := "Mint."; metadata := [] |} ] in
  docs <> []
  /\ length (filter is_document_number
               (written (on_retriever_end docs (VStr "6f1c") VNone []
                           (reporter (Some false))))) = 3.
Proof.
  cbv zeta. split; [discriminate |].
  apply (on_retriever_end_sections (Some false)
           [ {| page_content := "Cocoa."; metadata := [] |};
             {| page_content := "Berries."; metadata := [] |};
             {| page_content := "Mint."; metadata := [] |} ]
           (VStr "6f1c") VNone []).
  discriminate.
Defined.

(** *** Warnings *)

Lemma document_sections_no_warning total (docs : list (nat * Document)) :
  existsb is_warning
    (flat_map (fun nd => document_section (fst nd) total (snd nd)) docs) = false.
Proof.
  induction docs as [| [k d] l IH]; cbn [flat_map]; [reflexivity |].
  rewrite existsb_app, IH. reflexivity.
Qed.

(** X12: a warning line is written exactly when the payload has the anomaly
    the handler looks for.  For every payload that carries the identifiers:
    [on_llm_start] warns iff there are several prompts, [on_llm_end] iff
    there are several generation lists, [on_agent_action] and
    [on_agent_finish] iff the object has no [log], [on_retriever_start] iff
    [serialized] has no "id", [on_retriever_end] iff there are no
    documents. *)
Theorem warning_exactly_on_anomaly :
  forall (dm : option bool) (ev : event) (b : bool) (title rid pid : string),
    anomaly ev = Some b ->
    leads ev = Some (title, rid, pid) ->
    existsb is_warning (written (handle ev (reporter dm))) = b.
Proof.
  intros dm ev b title rid pid Ha Hl.
  destruct ev; cbn [anomaly] in Ha; try discriminate Ha; injection Ha as <-;
    cbn [leads] in Hl;
    try (apply ids_in_some in Hl; destruct Hl as (r & p & Hr & Hp & _));
    cbn [handle].
  - (* on_llm_start *)
    unfold on_llm_start. destruct prompts as [| p1 [| p2 ps]];
      cbn [length Nat.ltb Nat.leb first]; by_mode dm Hd; run;
      try (erewrite bind_failed by (eapply fail_plain_arg; reflexivity));
      reflexivity.
  - (* on_llm_end *)
    unfold on_llm_end. destruct (generations response) as [| [| g g0] [| g1 gs]];
      cbn [length Nat.ltb Nat.leb first]; by_mode dm Hd; run;
      try (erewrite bind_failed by (eapply fail_plain_arg; reflexivity));
      reflexivity.
  - (* on_agent_action *)
    unfold on_agent_action. destruct (action_log action);
      by_mode dm Hd; run; reflexivity.
  - (* on_agent_finish *)
    unfold on_agent_finish. destruct (finish_log finish);
      by_mode dm Hd; run; reflexivity.
  - (* on_retriever_start *)
    unfold on_retriever_start.
    destruct (dict_has "id" serialized) eqn:Hhas; cbn [negb].
    + destruct (dict_has_get _ _ Hhas) as [v Hv].
      run. erewrite bind_getitem by exact Hv. unfold join.
      destruct (iter_strs v); by_mode dm Hd; run; reflexivity.
    + by_mode dm Hd; run; reflexivity.
  - (* on_retriever_end *)
    unfold on_retriever_end. destruct documents as [| d ds].
    + cbn [length Nat.eqb]. by_mode dm Hd; run; reflexivity.
    + cbn [length Nat.eqb]. run. rewrite run_document_sections.
      unfold after, ok. cbn [written].
      rewrite !existsb_app, document_sections_no_warning. reflexivity.
Qed.

Lemma warning_exactly_on_anomaly_witness :
  let ev := LlmStart [] ["a"; "b"; "c"] sample_kwargs in
  anomaly ev = Some true
  /\ leads ev = Some ("> Sending text to the LLM.", "6f1c", "None")
  /\ existsb is_warning (written (handle ev (reporter (Some false)))) = true.
Proof.
  cbv zeta. split; [reflexivity | split; [reflexivity |]].
  exact (warning_exactly_on_anomaly (Some false)
           (LlmStart [] ["a"; "b"; "c"] sample_kwargs) true
           "> Sending text to the LLM." "6f1c" "None" eq_refl eq_refl).
Defined.

(** *** When a handler returns *)

Lemma dict_has_false_get k d : dict_has k d = false -> dict_get k d = None.
Proof.
  intro H. destruct (dict_get k d) as [v |] eqn:Hv; [| reflexivity].
  rewrite (dict_get_has _ _ Hv) in H. discriminate H.
Qed.

Lemma fail_getattr_out dm name :
  class_get name OutputFormatter_class = None ->
  getattr_out name (reporter dm) = failed (reporter dm) [] (AttributeError name).
Proof.
  intro H. unfold getattr_out, reporter, __init__; cbn [out]. rewrite H. reflexivity.
Qed.

Ltac raised := eexists; eexists; reflexivity.

Ltac ids_or_raise kw Hr Hp :=
  destruct (dict_get "run_id" kw) as [rid |] eqn:Hr; [| run; raised];
  destruct (dict_get "parent_run_id" kw) as [pid |] eqn:Hp; [| run; raised].

Ltac have_ids H Hr Hp :=
  unfold has_ids in H;
  rewrite (dict_get_has _ _ Hr), (dict_get_has _ _ Hp) in H;
  cbn [andb] in H.

Lemma handlers_raise_otherwise dm ev :
  returns_at dm ev = false ->
  exists tr e, handle ev (reporter dm) = failed (reporter dm) tr e.
Proof.
  destruct ev; cbn [returns_at well_formed handle]; intro H; try discriminate H.
  - (* on_text *)
    apply orb_false_iff in H. destruct H as [Hd H].
    apply negb_false_iff in Hd.
    unfold on_text. run. ids_or_raise kwargs Hr Hp.
    have_ids H Hr Hp. discriminate H.
  - (* on_llm_start *)
    unfold on_llm_start. ids_or_raise kwargs Hr Hp. have_ids H Hr Hp.
    destruct prompts; [| discriminate H]. cbn [length Nat.ltb Nat.leb].
    run. erewrite bind_failed by (eapply fail_plain_arg; reflexivity). raised.
  - (* on_llm_end *)
    unfold on_llm_end. ids_or_raise kwargs Hr Hp. have_ids H Hr Hp.
    destruct (generations response) as [| [| g g0] [| g1 gs]];
      try discriminate H; cbn [length Nat.ltb Nat.leb];
      by_mode dm Hd; run;
      (erewrite bind_failed by (eapply fail_plain_arg; reflexivity)); raised.
  - (* on_chain_start *)
    unfold on_chain_start. unfold joinable_id in H.
    destruct (dict_get "id" serialized) as [v |] eqn:Hv.
    + rewrite (dict_get_has _ _ Hv). cbn [negb].
      run. erewrite bind_getitem by exact Hv. unfold join.
      destruct (iter_strs v) as [comps |]; [| run; raised].
      run. ids_or_raise kwargs Hr Hp. have_ids H Hr Hp.
      destruct inputs; [| discriminate H]. cbn [length Nat.ltb Nat.leb].
      run. erewrite bind_failed by (apply fail_getattr_out; reflexivity). raised.
    + rewrite (dict_get_none_has _ _ Hv). cbn [negb].
      by_mode dm Hd; run; ids_or_raise kwargs Hr Hp; have_ids H Hr Hp;
        (destruct inputs; [| discriminate H]); cbn [length Nat.ltb Nat.leb];
        run; (erewrite bind_failed by (apply fail_getattr_out; reflexivity)); raised.
  - (* on_chain_end *)
    unfold on_chain_end. ids_or_raise kwargs Hr Hp. have_ids H Hr Hp.
    destruct outputs; [| discriminate H]. cbn [length Nat.eqb]. run. raised.
  - (* on_tool_start *)
    unfold on_tool_start. ids_or_raise kwargs Hr Hp. have_ids H Hr Hp.
    apply dict_has_false_get in H. run. raised.
  - (* on_tool_end *)
    unfold on_tool_end. ids_or_raise kwargs Hr Hp. have_ids H Hr Hp.
    apply dict_has_false_get in H. run. raised.
  - (* on_agent_action *)
    unfold on_agent_action. ids_or_raise kwargs Hr Hp. have_ids H Hr Hp.
    discriminate H.
  - (* on_agent_finish *)
    unfold on_agent_finish. ids_or_raise kwargs Hr Hp. have_ids H Hr Hp.
    discriminate H.
  - (* on_retriever_start *)
    unfold on_retriever_start. unfold joinable_id in H.
    destruct (dict_get "id" serialized) as [v |] eqn:Hv; [| discriminate H].
    destruct (iter_strs v) eqn:Hi; [discriminate H |].
    rewrite (dict_get_has _ _ Hv). cbn [negb].
    run. erewrite bind_getitem by exact Hv. unfold join. rewrite Hi. run. raised.
Qed.

(** X13: exactly when a handler of the reporter returns.  [on_text] returns
    outside debug mode, and in debug mode iff [kwargs] has both identifiers.
    The error handlers and [on_retriever_end] always return.
    [on_retriever_start] returns iff [serialized["id"]] is absent or can be
    joined.  Every other handler needs both identifiers in [kwargs], and in
    addition: [on_llm_start] a prompt, [on_llm_end] a first generation list
    that is not empty, [on_chain_start] a joinable or absent
    [serialized["id"]] and a non-empty input mapping, [on_chain_end] a
    non-empty output mapping, [on_tool_start] the key "name" in
    [serialized], [on_tool_end] the key "name" in [kwargs].  On every other
    payload the handler raises. *)
Theorem handler_returns_iff :
  forall (dm : option bool) (ev : event),
    returns (handle ev (reporter dm)) <-> returns_at dm ev = true.
Proof.
  intros dm ev. split.
  - intros [a Ha]. destruct (returns_at dm ev) eqn:H; [reflexivity |].
    destruct (handlers_raise_otherwise dm ev H) as (tr & e & Hf).
    rewrite Hf in Ha. discriminate Ha.
  - intro H.
    assert (Hok : exists tr, handle ev (reporter dm) = ok (reporter dm) tr tt).
    { destruct ev; try (apply handlers_return_on_well_formed; exact H).
      cbn [returns_at] in H. cbn [handle]. by_mode dm Hd.
      - match goal with
        | |- exists tr, on_text ?t ?c ?e ?kw _ = _ =>
            apply (handlers_return_on_well_formed dm (Text t c e kw))
        end.
        exact H.
      - exists []. unfold on_text. run. reflexivity. }
    destruct Hok as [tr Hok]. rewrite Hok. exists tt. reflexivity.
Qed.

(** *** One heading, first *)

Ltac quiet_step' :=
  match goal with
  | |- writes _ (bind (getattr_out _) _) _ => apply writes_attr_of_attr
  | _ => quiet_step
  end.

(** X14: the ten handlers that open with a heading write it first on every
    payload whatsoever, also on one that makes them raise later: the first
    console effect is the bold line of the event kind, it is a heading line,
    and no later line is one. *)
Theorem heading_comes_first :
  forall (dm : option bool) (ev : event) (title : string),
    title_of ev = Some title ->
    exists rest,
      written (handle ev (reporter dm))
      = Print (Color.BOLD ++ nl ++ nl ++ title ++ Color.END) nl :: rest
      /\ is_heading (Print (Color.BOLD ++ nl ++ nl ++ title ++ Color.END) nl) = true
      /\ no_heading rest = true
      /\ length (filter is_heading (written (handle ev (reporter dm)))) = 1.
Proof.
  intros dm ev title Ht.
  assert (H : exists rest,
      written (handle ev (reporter dm))
      = Print (Color.BOLD ++ nl ++ nl ++ title ++ Color.END) nl :: rest
      /\ is_heading (Print (Color.BOLD ++ nl ++ nl ++ title ++ Color.END) nl) = true
      /\ no_heading rest = true).
  { destruct ev; cbn [title_of] in Ht; try discriminate Ht; injection Ht as <-;
      cbn [handle];
      unfold on_llm_start, on_llm_end, on_chain_start, on_chain_end, on_tool_start,
        on_tool_end, on_agent_action, on_agent_finish, on_retriever_start,
        on_retriever_end;
      run_step;
      (eexists; split; [reflexivity | split; [reflexivity |]]);
      match goal with
      | |- no_heading (written (?m ?s)) = true => change (writes not_heading m s)
      end;
      repeat quiet_step'. }
  destruct H as (rest & Hw & Hh & Hrest). exists rest.
  split; [exact Hw | split; [exact Hh | split; [exact Hrest |]]].
  rewrite Hw. cbn [filter]. rewrite Hh. cbn [length]. f_equal.
  clear Hw. unfold no_heading, not_heading in Hrest.
  induction rest as [| e r IH]; [reflexivity |].
  cbn [forallb] in Hrest. apply andb_prop in Hrest. destruct Hrest as [He Hr].
  cbn [filter]. destruct (is_heading e); [discriminate He | exact (IH Hr)].
Qed.

Lemma heading_comes_first_witness :
  title_of (ChainStart [] [] []) = Some "> Starting new chain."
  /\ exists rest,
       written (handle (ChainStart [] [] []) (reporter (Some false)))
       = Print (Color.BOLD ++ nl ++ nl ++ "> Starting new chain." ++ Color.END) nl
         :: rest
       /\ is_heading
            (Print (Color.BOLD ++ nl ++ nl ++ "> Starting new chain." ++ Color.END) nl)
          = true
       /\ no_heading rest = true
       /\ length (filter is_heading
                    (written (handle (ChainStart [] [] []) (reporter (Some false)))))
          = 1.
Proof.
  split; [reflexivity |].
  exact (heading_comes_first (Some false) (ChainStart [] [] [])
           "> Starting new chain." eq_refl).
Defined.

(** *** Output goes through the sink *)

Section SilentSink.
Variable P : effect -> bool.
Variable self : AllChainDetails.
Hypothesis Hsink : silent_sink (out self).

Lemma getattr_out_class name m :
  outcome (getattr_out name self) = inr m -> class_get name (out self) = Some m.
Proof.
  unfold getattr_out; cbn [outcome].
  destruct (class_get name (out self)); [| discriminate].
  intro H; injection H as ->; reflexivity.
Qed.

Lemma silent_out_plain name (text : M string) :
  frame text -> writes P text self -> writes P (out_plain name text) self.
Proof.
  intros Hf Ht. unfold out_plain.
  apply writes_bind_outcome; [apply frame_getattr_out | reflexivity |].
  intros m Hm. apply getattr_out_class in Hm. apply Hsink in Hm.
  apply writes_bind; [exact Hf | exact Ht |].
  intro t. destruct m as [f | f]; cbn [call_plain silent] in *.
  - apply writes_emit. rewrite Hm. reflexivity.
  - apply writes_raise.
Qed.

Lemma silent_out_labeled name label (contents : M string) b :
  frame contents -> writes P contents self ->
  writes P (out_labeled name label contents b) self.
Proof.
  intros Hf Ht. unfold out_labeled.
  apply writes_bind_outcome; [apply frame_getattr_out | reflexivity |].
  intros m Hm. apply getattr_out_class in Hm. apply Hsink in Hm.
  apply writes_bind; [exact Hf | exact Ht |].
  intro c. destruct m as [f | f]; cbn [call_labeled silent] in *.
  - apply writes_raise.
  - apply writes_emit. rewrite Hm. reflexivity.
Qed.
End SilentSink.

Ltac sink_step Hsink :=
  match goal with
  | |- forall _, _ => intro
  | |- writes _ (if_debug _) _ => apply writes_if_debug
  | |- writes _ (bind (getattr_out _) _) _ => apply writes_attr_of_attr
  | |- writes _ (bind _ _) _ =>
      apply writes_bind; [solve [unfold getattr_method; handler_frame] | |]
  | |- writes _ (out_plain _ _) _ =>
      apply (silent_out_plain _ _ Hsink); [solve [handler_frame] |]
  | |- writes _ (out_labeled _ _ _ _) _ =>
      apply (silent_out_labeled _ _ Hsink); [solve [handler_frame] |]
  | |- writes _ (for_each _ _) _ => apply writes_for_each; [solve [handler_frame] |]
  | |- writes _ (if ?b then _ else _) _ => destruct b
  | |- writes _ (match ?x with _ => _ end) _ => destruct x
  | |- writes _ (let '(_, _) := ?p in _) _ => destruct p
  | |- writes _ breakpoint _ => reflexivity
  | |- writes _ _ _ => solve [auto with quiet]
  end.

(** X15: the handlers write to the console through the sink only, with two
    exceptions: the debugger, and [on_text], which prints its text itself.
    With a sink whose functions write nothing, whatever its attributes, all
    that a handler does on any payload is to enter the debugger, and
    [on_text] to print its text. *)
Theorem output_goes_through_the_sink :
  forall (self : AllChainDetails) (ev : event),
    silent_sink (out self) ->
    forallb (direct ev) (written (handle ev self)) = true.
Proof.
  intros self ev Hsink.
  change (writes (direct ev) (handle ev) self).
  destruct ev; cbn [handle];
    unfold on_text, on_llm_start, on_llm_end, on_chain_start, on_chain_end,
      on_tool_start, on_tool_end, on_agent_action, on_agent_finish, on_llm_error,
      on_chain_error, on_tool_error, on_retriever_start, on_retriever_end;
    repeat sink_step Hsink.
  apply writes_emit. unfold print, direct. cbn [forallb is_breakpoint orb].
  rewrite !String.eqb_refl. reflexivity.
Qed.

Lemma silent_class_is_silent : silent_sink silent_class.
Proof.
  intros name m Hc. unfold silent_class in Hc. cbn [class_get] in Hc.
  repeat match type of Hc with
         | (if String.eqb ?n ?s then _ else _) = _ =>
             destruct (String.eqb_spec n s) as [Heq | _]
         end;
    try discriminate Hc;
    injection Hc as <-; cbn [silent]; intros; reflexivity.
Qed.

Lemma output_goes_through_the_sink_witness :
  let self := __init__ (Some true) silent_class in
  let kwargs := sample_kwargs ++ [("name", VStr "Search")] in
  silent_sink (out self)
  /\ written (handle (Text "Prompt after formatting" None EmptyString kwargs) self)
     = [Print "Prompt after formatting" nl]
  /\ written (handle (LlmStart [] ["a"; "b"] kwargs) self) = [Breakpoint]
  /\ forallb (direct (Text "Prompt after formatting" None EmptyString kwargs))
       (written (handle (Text "Prompt after formatting" None EmptyString kwargs) self))
     = true
  /\ forallb (direct (LlmStart [] ["a"; "b"] kwargs))
       (written (handle (LlmStart [] ["a"; "b"] kwargs) self))
     = true.
Proof.
  cbv zeta.
  split; [exact silent_class_is_silent |].
  split; [reflexivity | split; [reflexivity |]].
  split.
  - exact (output_goes_through_the_sink (__init__ (Some true) silent_class)
             (Text "Prompt after formatting" None EmptyString
                (sample_kwargs ++ [("name", VStr "Search")]))
             silent_class_is_silent).
  - exact (output_goes_through_the_sink (__init__ (Some true) silent_class)
             (LlmStart [] ["a"; "b"] (sample_kwargs ++ [("name", VStr "Search")]))
             silent_class_is_silent).
Defined.

(** ** What reaches the console, effect by effect *)

(** X2: [on_llm_start] on a payload with at least one prompt and the
    identifiers.  The call returns.  Spelled out as console effects, it
    writes the heading in bold, the two identifier lines, if there are
    further prompts the two bold red warnings (and in debug mode the dump
    of all prompts and a stop in the debugger), the line "Text sent to
    LLM:", the first prompt in italics, and in debug mode the dumps of the
    arguments. *)
Theorem on_llm_start_first_prompt :
  forall (dm : option bool) (serialized kwargs : dict) (p : string)
         (more : list string) (rid pid : PyVal),
    dict_get "run_id" kwargs = Some rid ->
    dict_get "parent_run_id" kwargs = Some pid ->
    let line (codes text : string) := [Print (codes ++ text ++ Color.END) nl] in
    let labeled (colour label contents : string) :=
      [Print (Color.BOLD ++ colour ++ label ++ ": " ++ Color.END ++ colour) EmptyString;
       Cpprint contents; Print Color.END EmptyString] in
    on_llm_start serialized (p :: more) kwargs (reporter dm)
    = ok (reporter dm)
        (line Color.BOLD (nl ++ nl ++ "> Sending text to the LLM.")%string
         ++ labeled Color.DARKCYAN "Chain ID" (py_str rid)
         ++ labeled Color.DARKCYAN "Parent chain ID" (py_str pid)
         ++ (if nonempty more then
               line (Color.BOLD ++ Color.RED)%string "prompts has multiple items."
               ++ line (Color.BOLD ++ Color.RED)%string "Only outputting first item in prompts."
               ++ (if truthy dm then
                     labeled Color.BLUE "Prompts" (py_str (str_list (p :: more)))
                     ++ [Breakpoint]
                   else [])
             else [])
         ++ line (Color.BOLD ++ Color.DARKCYAN)%string "Text sent to LLM:"
         ++ line Color.ITALICS p
         ++ (if truthy dm then
               labeled Color.BLUE "Arguments" (py_str (VDict kwargs))
               ++ labeled Color.BLUE "serialized" (py_str (VDict serialized))
             else []))
        tt.
Proof.
  intros dm serialized kwargs p more rid pid Hr Hp line labeled.
  subst line labeled.
  unfold on_llm_start. destruct more as [| p2 more];
    cbn [length Nat.ltb Nat.leb first nonempty];
    by_mode dm Hd; run; reflexivity.
Qed.

Lemma on_llm_start_first_prompt_witness :
  dict_get "run_id" sample_kwargs = Some (VObj "6f1c" "UUID('6f1c')")
  /\ dict_get "parent_run_id" sample_kwargs = Some VNone
  /\ on_llm_start [] ["What food pairs well with chocolate?"; "And with mint?"]
       sample_kwargs (reporter (Some false))
     = ok (reporter (Some false))
         ([Print (Color.BOLD ++ nl ++ nl ++ "> Sending text to the LLM." ++ Color.END) nl;
           Print (Color.BOLD ++ Color.DARKCYAN ++ "Chain ID: " ++ Color.END
                  ++ Color.DARKCYAN) EmptyString;
           Cpprint "6f1c"; Print Color.END EmptyString;
           Print (Color.BOLD ++ Color.DARKCYAN ++ "Parent chain ID: " ++ Color.END
                  ++ Color.DARKCYAN) EmptyString;
           Cpprint "None"; Print Color.END EmptyString;
           Print (Color.BOLD ++ Color.RED ++ "prompts has multiple items." ++ Color.END) nl;
           Print (Color.BOLD ++ Color.RED ++ "Only outputting first item in prompts."
                  ++ Color.END) nl;
           Print (Color.BOLD ++ Color.DARKCYAN ++ "Text sent to LLM:" ++ Color.END) nl;
           Print (Color.ITALICS ++ "What food pairs well with chocolate?" ++ Color.END)
             nl])
         tt.
Proof.
  split; [reflexivity | split; [reflexivity |]].
  exact (on_llm_start_first_prompt (Some false) [] sample_kwargs
           "What food pairs well with chocolate?" ["And with mint?"]
           (VObj "6f1c" "UUID('6f1c')") VNone eq_refl eq_refl).
Defined.

(** X4: [on_llm_end] on a response whose first generation list is not
    empty, with the identifiers.  The call returns.  Spelled out as console
    effects, it writes the heading in bold, the two identifier lines, if
    there are further generation lists the two bold red warnings (and in
    debug mode the dump of the response and a stop in the debugger), the
    line "Text received from LLM:", the text of the first generation
    underlined, and in debug mode the dumps. *)
Theorem on_llm_end_first_generation :
  forall (dm : option bool) (response : LLMResult) (kwargs : dict)
         (g : Generation) (g_more : list Generation)
         (more : list (list Generation)) (rid pid : PyVal),
    dict_get "run_id" kwargs = Some rid ->
    dict_get "parent_run_id" kwargs = Some pid ->
    generations response = (g :: g_more) :: more ->
    let line (codes text : string) := [Print (codes ++ text ++ Color.END) nl] in
    let labeled (colour label contents : string) :=
      [Print (Color.BOLD ++ colour ++ label ++ ": " ++ Color.END ++ colour) EmptyString;
       Cpprint contents; Print Color.END EmptyString] in
    on_llm_end response kwargs (reporter dm)
    = ok (reporter dm)
        (line Color.BOLD (nl ++ nl ++ "> Received response from LLM.")%string
         ++ labeled Color.DARKCYAN "Chain ID" (py_str rid)
         ++ labeled Color.DARKCYAN "Parent chain ID" (py_str pid)
         ++ (if nonempty more then
               line (Color.BOLD ++ Color.RED)%string "response object has multiple generations."
               ++ line (Color.BOLD ++ Color.RED)%string
                    "Only outputting first generation in response."
               ++ (if truthy dm then
                     labeled Color.BLUE "response" (response_str response)
                     ++ [Breakpoint]
                   else [])
             else [])
         ++ line (Color.BOLD ++ Color.DARKCYAN)%string "Text received from LLM:"
         ++ line Color.UNDERLINE (text g)
         ++ (if truthy dm then
               labeled Color.BLUE "Arguments" (py_str (VDict kwargs))
               ++ labeled Color.BLUE "response" (response_str response)
             else []))
        tt.
Proof.
  intros dm response kwargs g g_more more rid pid Hr Hp Hg line labeled.
  subst line labeled.
  unfold on_llm_end. rewrite Hg. destruct more as [| g1 more];
    cbn [length Nat.ltb Nat.leb first nonempty];
    by_mode dm Hd; run; reflexivity.
Qed.

Lemma on_llm_end_first_generation_witness :
  let response :=
    {| generations := [[ {| text := "Strawberries." |}; {| text := "Mint." |} ]];
       response_str := "generations=[[Generation(text='Strawberries.'), ...]]" |} in
  dict_get "run_id" sample_kwargs = Some (VObj "6f1c" "UUID('6f1c')")
  /\ dict_get "parent_run_id" sample_kwargs = Some VNone
  /\ on_llm_end response sample_kwargs (reporter (Some false))
     = ok (reporter (Some false))
         ([Print (Color.BOLD ++ nl ++ nl ++ "> Received response from LLM." ++ Color.END)
             nl;
           Print (Color.BOLD ++ Color.DARKCYAN ++ "Chain ID: " ++ Color.END
                  ++ Color.DARKCYAN) EmptyString;
           Cpprint "6f1c"; Print Color.END EmptyString;
           Print (Color.BOLD ++ Color.DARKCYAN ++ "Parent chain ID: " ++ Color.END
                  ++ Color.DARKCYAN) EmptyString;
           Cpprint "None"; Print Color.END EmptyString;
           Print (Color.BOLD ++ Color.DARKCYAN ++ "Text received from LLM:" ++ Color.END)
             nl;
           Print (Color.UNDERLINE ++ "Strawberries." ++ Color.END) nl])
         tt.
Proof.
  cbv zeta. split; [reflexivity | split; [reflexivity |]].
  exact (on_llm_end_first_generation (Some false)
           {| generations := [[ {| text := "Strawberries." |}; {| text := "Mint." |} ]];
              response_str := "generations=[[Generation(text='Strawberries.'), ...]]" |}
           sample_kwargs {| text := "Strawberries." |} [ {| text := "Mint." |} ] []
           (VObj "6f1c" "UUID('6f1c')") VNone eq_refl eq_refl eq_refl).
Defined.

(** X6: [on_tool_start] with the identifiers present.  If [serialized] has
    the key "name", the call returns after writing, as console effects, the
    heading, the identifier lines, the tool name line, the line "Query sent
    to tool:" and the query in italic purple; if it has not, the call raises
    [KeyError] for "name" after the heading and the identifier lines. *)
Theorem on_tool_start_needs_name :
  forall (dm : option bool) (serialized : dict) (input_str : string)
         (kwargs : dict) (rid pid : PyVal),
    dict_get "run_id" kwargs = Some rid ->
    dict_get "parent_run_id" kwargs = Some pid ->
    let line (codes text : string) := [Print (codes ++ text ++ Color.END) nl] in
    let labeled (colour label contents : string) :=
      [Print (Color.BOLD ++ colour ++ label ++ ": " ++ Color.END ++ colour) EmptyString;
       Cpprint contents; Print Color.END EmptyString] in
    let intro_ :=
      line Color.BOLD (nl ++ nl ++ "> Using tool.")%string
      ++ labeled Color.DARKCYAN "Chain ID" (py_str rid)
      ++ labeled Color.DARKCYAN "Parent chain ID" (py_str pid) in
    (forall name,
       dict_get "name" serialized = Some name ->
       on_tool_start serialized input_str kwargs (reporter dm)
       = ok (reporter dm)
           (intro_
            ++ labeled Color.DARKCYAN "Tool name" (py_str name)
            ++ line (Color.BOLD ++ Color.DARKCYAN)%string "Query sent to tool:"
            ++ line (Color.ITALICS ++ Color.PURPLE)%string input_str
            ++ (if truthy dm then
                  labeled Color.BLUE "Arguments" (py_str (VDict kwargs))
                  ++ labeled Color.BLUE "serialized" (py_str (VDict serialized))
                else []))
           tt)
    /\ (dict_get "name" serialized = None ->
        on_tool_start serialized input_str kwargs (reporter dm)
        = failed (reporter dm) intro_ (KeyError "name")).
Proof.
  intros dm serialized input_str kwargs rid pid Hr Hp line labeled intro_.
  subst intro_ line labeled.
  unfold on_tool_start. split.
  - intros name Hn. by_mode dm Hd; run; reflexivity.
  - intro Hn. run. reflexivity.
Qed.

Lemma on_tool_start_needs_name_witness :
  dict_get "run_id" sample_kwargs = Some (VObj "6f1c" "UUID('6f1c')")
  /\ dict_get "parent_run_id" sample_kwargs = Some VNone
  /\ dict_get "name" [("name", VStr "Search")] = Some (VStr "Search")
  /\ on_tool_start [("name", VStr "Search")] "weather" sample_kwargs
       (reporter (Some false))
     = ok (reporter (Some false))
         ([Print (Color.BOLD ++ nl ++ nl ++ "> Using tool." ++ Color.END) nl;
           Print (Color.BOLD ++ Color.DARKCYAN ++ "Chain ID: " ++ Color.END
                  ++ Color.DARKCYAN) EmptyString;
           Cpprint "6f1c"; Print Color.END EmptyString;
           Print (Color.BOLD ++ Color.DARKCYAN ++ "Parent chain ID: " ++ Color.END
                  ++ Color.DARKCYAN) EmptyString;
           Cpprint "None"; Print Color.END EmptyString;
           Print (Color.BOLD ++ Color.DARKCYAN ++ "Tool name: " ++ Color.END
                  ++ Color.DARKCYAN) EmptyString;
           Cpprint "Search"; Print Color.END EmptyString;
           Print (Color.BOLD ++ Color.DARKCYAN ++ "Query sent to tool:" ++ Color.END) nl;
           Print (Color.ITALICS ++ Color.PURPLE ++ "weather" ++ Color.END) nl])
         tt.
Proof.
  split; [reflexivity | split; [reflexivity | split; [reflexivity |]]].
  exact (proj1 (on_tool_start_needs_name (Some false) [("name", VStr "Search")]
                  "weather" sample_kwargs (VObj "6f1c" "UUID('6f1c')") VNone
                  eq_refl eq_refl) (VStr "Search") eq_refl).
Defined.

(** X7: [on_agent_action] and [on_agent_finish] with the identifiers
    present return (in debug mode once the operator leaves the debugger).
    Spelled out as console effects: an action with a log gets one labelled
    line whose contents are the list of the lines of the log; an action
    without the attribute gets a bold red warning instead, and in debug mode
    a stop in the debugger (preceded, for [on_agent_action] only, by a dump
    of the action). *)
Theorem agent_handlers_report_log :
  forall (dm : option bool) (kwargs : dict) (rid pid : PyVal)
         (color : option string),
    dict_get "run_id" kwargs = Some rid ->
    dict_get "parent_run_id" kwargs = Some pid ->
    let line (codes text : string) := [Print (codes ++ text ++ Color.END) nl] in
    let labeled (colour label contents : string) :=
      [Print (Color.BOLD ++ colour ++ label ++ ": " ++ Color.END ++ colour) EmptyString;
       Cpprint contents; Print Color.END EmptyString] in
    let ids :=
      labeled Color.DARKCYAN "Chain ID" (py_str rid)
      ++ labeled Color.DARKCYAN "Parent chain ID" (py_str pid) in
    (forall action,
       on_agent_action action color kwargs (reporter dm)
       = ok (reporter dm)
           (line Color.BOLD (nl ++ nl ++ "> Agent taking an action.")%string
            ++ ids
            ++ match action_log action with
               | Some log =>
                   labeled Color.DARKCYAN "Action log"
                     (py_str (str_list (splitlines log)))
               | None =>
                   line (Color.BOLD ++ Color.RED)%string "No log in action."
                   ++ (if truthy dm then
                         labeled Color.BLUE "action" (action_str action)
                         ++ [Breakpoint]
                       else [])
               end
            ++ (if truthy dm then
                  labeled Color.BLUE "Arguments" (py_str (VDict kwargs))
                  ++ labeled Color.BLUE "action" (action_str action)
                else []))
           tt)
    /\ (forall finish,
          on_agent_finish finish color kwargs (reporter dm)
          = ok (reporter dm)
              (line Color.BOLD (nl ++ nl ++ "> Agent has finished.")%string
               ++ ids
               ++ match finish_log finish with
                  | Some log =>
                      labeled Color.DARKCYAN "Action finish log"
                        (py_str (str_list (splitlines log)))
                  | None =>
                      line (Color.BOLD ++ Color.RED)%string "No log in action finish."
                      ++ (if truthy dm then [Breakpoint] else [])
                  end
               ++ (if truthy dm then
                     labeled Color.BLUE "Arguments" (py_str (VDict kwargs))
                     ++ labeled Color.BLUE "finish" (finish_str finish)
                   else []))
              tt).
Proof.
  intros dm kwargs rid pid color Hr Hp line labeled ids. subst ids line labeled.
  split.
  - intro action. unfold on_agent_action.
    destruct (action_log action); by_mode dm Hd; run; reflexivity.
  - intro finish. unfold on_agent_finish.
    destruct (finish_log finish); by_mode dm Hd; run; reflexivity.
Qed.

Lemma agent_handlers_report_log_witness :
  let action :=
    {| action_log := Some ("I should search." ++ nl ++ "Action: Search")%string;
       action_str := "AgentAction" |} in
  dict_get "run_id" sample_kwargs = Some (VObj "6f1c" "UUID('6f1c')")
  /\ dict_get "parent_run_id" sample_kwargs = Some VNone
  /\ on_agent_action action None sample_kwargs (reporter (Some false))
     = ok (reporter (Some false))
         ([Print (Color.BOLD ++ nl ++ nl ++ "> Agent taking an action." ++ Color.END) nl;
           Print (Color.BOLD ++ Color.DARKCYAN ++ "Chain ID: " ++ Color.END
                  ++ Color.DARKCYAN) EmptyString;
           Cpprint "6f1c"; Print Color.END EmptyString;
           Print (Color.BOLD ++ Color.DARKCYAN ++ "Parent chain ID: " ++ Color.END
                  ++ Color.DARKCYAN) EmptyString;
           Cpprint "None"; Print Color.END EmptyString;
           Print (Color.BOLD ++ Color.DARKCYAN ++ "Action log: " ++ Color.END
                  ++ Color.DARKCYAN) EmptyString;
           Cpprint "['I should search.', 'Action: Search']";
           Print Color.END EmptyString])
         tt.
Proof.
  cbv zeta. split; [reflexivity | split; [reflexivity |]].
  exact (proj1 (agent_handlers_report_log (Some false) sample_kwargs
                  (VObj "6f1c" "UUID('6f1c')") VNone None eq_refl eq_refl)
           {| action_log := Some ("I should search." ++ nl ++ "Action: Search")%string;
              action_str := "AgentAction" |}).
Defined.

(** X8: [on_chain_end] on a non-empty output mapping (a dictionary: no key
    twice) with the identifiers present.  The call returns, and after the
    identifier lines it writes, for each binding in the order of the
    mapping, the label "Output <key>" and the list of the lines of that
    key's value; in debug mode the dumps follow. *)
Theorem on_chain_end_lists_outputs :
  forall (dm : option bool) (outputs kwargs : dict) (rid pid : PyVal),
    dict_get "run_id" kwargs = Some rid ->
    dict_get "parent_run_id" kwargs = Some pid ->
    outputs <> [] ->
    NoDup (keys outputs) ->
    let line (codes text : string) := [Print (codes ++ text ++ Color.END) nl] in
    let labeled (colour label contents : string) :=
      [Print (Color.BOLD ++ colour ++ label ++ ": " ++ Color.END ++ colour) EmptyString;
       Cpprint contents; Print Color.END EmptyString] in
    on_chain_end outputs kwargs (reporter dm)
    = ok (reporter dm)
        (line Color.BOLD (nl ++ nl ++ "> Ending chain.")%string
         ++ labeled Color.DARKCYAN "Chain ID" (py_str rid)
         ++ labeled Color.DARKCYAN "Parent chain ID" (py_str pid)
         ++ flat_map
              (fun kv : string * PyVal =>
                 labeled Color.DARKCYAN ("Output " ++ fst kv)%string
                   (py_str (str_list (splitlines (py_str (snd kv))))))
              outputs
         ++ (if truthy dm then
               labeled Color.BLUE "Arguments" (py_str (VDict kwargs))
               ++ labeled Color.BLUE "outputs" (py_str (VDict outputs))
             else []))
        tt.
Proof.
  intros dm outputs kwargs rid pid Hr Hp Hne Hnd line labeled. subst line labeled.
  unfold on_chain_end.
  assert (Hlen : (length outputs =? 0)%nat = false)
    by (destruct outputs; [contradiction | reflexivity]).
  rewrite Hlen.
  pose proof (run_output_lines_by_binding dm outputs outputs
                (fun k v => dict_get_nodup outputs k v Hnd)) as Hlines.
  by_mode dm Hd; run; (erewrite bind_ok by exact Hlines); run; reflexivity.
Qed.

Lemma on_chain_end_lists_outputs_witness :
  let outputs := [("text", VStr ("Strawberries." ++ nl ++ "Mint."));
                  ("score", VInt 7); ("answer", VNone)] in
  dict_get "run_id" sample_kwargs = Some (VObj "6f1c" "UUID('6f1c')")
  /\ dict_get "parent_run_id" sample_kwargs = Some VNone
  /\ outputs <> []
  /\ NoDup (keys outputs)
  /\ on_chain_end outputs sample_kwargs (reporter (Some false))
     = ok (reporter (Some false))
         ([Print (Color.BOLD ++ nl ++ nl ++ "> Ending chain." ++ Color.END) nl;
           Print (Color.BOLD ++ Color.DARKCYAN ++ "Chain ID: " ++ Color.END
                  ++ Color.DARKCYAN) EmptyString;
           Cpprint "6f1c"; Print Color.END EmptyString;
           Print (Color.BOLD ++ Color.DARKCYAN ++ "Parent chain ID: " ++ Color.END
                  ++ Color.DARKCYAN) EmptyString;
           Cpprint "None"; Print Color.END EmptyString;
           Print (Color.BOLD ++ Color.DARKCYAN ++ "Output text: " ++ Color.END
                  ++ Color.DARKCYAN) EmptyString;
           Cpprint "['Strawberries.', 'Mint.']"; Print Color.END EmptyString;
           Print (Color.BOLD ++ Color.DARKCYAN ++ "Output score: " ++ Color.END
                  ++ Color.DARKCYAN) EmptyString;
           Cpprint "['7']"; Print Color.END EmptyString;
           Print (Color.BOLD ++ Color.DARKCYAN ++ "Output answer: " ++ Color.END
                  ++ Color.DARKCYAN) EmptyString;
           Cpprint "['None']"; Print Color.END EmptyString])
         tt.
Proof.
  cbv zeta.
  assert (Hnd : NoDup (keys [("text", VStr ("Strawberries." ++ nl ++ "Mint."));
                             ("score", VInt 7); ("answer", VNone)])).
  { repeat constructor; cbn; intuition discriminate. }
  split; [reflexivity | split; [reflexivity | split; [discriminate |]]].
  split; [exact Hnd |].
  exact (on_chain_end_lists_outputs (Some false)
           [("text", VStr ("Strawberries." ++ nl ++ "Mint."));
            ("score", VInt 7); ("answer", VNone)]
           sample_kwargs (VObj "6f1c" "UUID('6f1c')") VNone
           eq_refl eq_refl (fun H => ltac:(discriminate H)) Hnd).
Defined.

(** *** The response of a tool *)

(** C9: in [on_tool_end] the test ["output" not in locals()] is false,
    because [output] is a parameter.  So no call writes a warning line.  A
    call that carries [run_id], [parent_run_id] and [name] returns, and what
    it writes, spelled out as console effects, has after the tool name line
    the bold line "Response from tool:" followed by the tool output,
    underlined in purple.  Every call whatsoever either writes these two
    lines, one after the other, and returns, or has raised [KeyError] before
    the test, on the first of the three keys that [kwargs] lacks. *)
Theorem on_tool_end_warning_unreachable :
  let line (codes text : string) := [Print (codes ++ text ++ Color.END) nl] in
  let labeled (colour label contents : string) :=
    [Print (Color.BOLD ++ colour ++ label ++ ": " ++ Color.END ++ colour) EmptyString;
     Cpprint contents; Print Color.END EmptyString] in
  let response (output : string) :=
    [Print (Color.BOLD ++ Color.DARKCYAN ++ "Response from tool:" ++ Color.END) nl;
     Print (Color.UNDERLINE ++ Color.PURPLE ++ output ++ Color.END) nl] in
  negb (existsb (String.eqb "output") on_tool_end_locals) = false
  /\ (forall (dm : option bool) (output : string)
             (color observation_prefix llm_prefix : option string) (kwargs : dict),
        existsb is_warning
          (written (on_tool_end output color observation_prefix llm_prefix kwargs
                      (reporter dm))) = false)
  /\ (forall (dm : option bool) (output : string)
             (color observation_prefix llm_prefix : option string) (kwargs : dict)
             (rid pid name : PyVal),
        dict_get "run_id" kwargs = Some rid ->
        dict_get "parent_run_id" kwargs = Some pid ->
        dict_get "name" kwargs = Some name ->
        on_tool_end output color observation_prefix llm_prefix kwargs (reporter dm)
        = ok (reporter dm)
            (line Color.BOLD (nl ++ nl ++ "> Received tool output.")%string
             ++ labeled Color.DARKCYAN "Chain ID" (py_str rid)
             ++ labeled Color.DARKCYAN "Parent chain ID" (py_str pid)
             ++ labeled Color.DARKCYAN "Tool name" (py_str name)
             ++ response output
             ++ (if truthy dm then
                   labeled Color.BLUE "Arguments" (py_str (VDict kwargs))
                   ++ labeled Color.BLUE "observation_prefix"
                        (py_str (opt_str observation_prefix))
                   ++ labeled Color.BLUE "llm_prefix" (py_str (opt_str llm_prefix))
                 else []))
            tt)
  /\ (forall (dm : option bool) (output : string)
             (color observation_prefix llm_prefix : option string) (kwargs : dict),
        let r := on_tool_end output color observation_prefix llm_prefix kwargs
                   (reporter dm) in
        (outcome r = inr tt
         /\ exists before after_, written r = before ++ response output ++ after_)
        \/ (exists key,
              In key ["run_id"; "parent_run_id"; "name"]
              /\ dict_get key kwargs = None
              /\ outcome r = inl (KeyError key)
              /\ forall before after_,
                   written r <> before ++ response output ++ after_)).
Proof.
  intros line labeled response. subst line labeled.
  split; [reflexivity |]. split; [| split].
  - intros dm output color op lp kwargs.
    unfold on_tool_end.
    cbn [negb orb existsb on_tool_end_locals String.eqb Ascii.eqb Bool.eqb].
    destruct (dict_get "run_id" kwargs) eqn:Hr;
      destruct (dict_get "parent_run_id" kwargs) eqn:Hp;
      destruct (dict_get "name" kwargs) eqn:Hn;
      by_mode dm Hd; run; reflexivity.
  - intros dm output color op lp kwargs rid pid name Hr Hp Hn.
    unfold on_tool_end.
    cbn [negb orb existsb on_tool_end_locals String.eqb Ascii.eqb Bool.eqb].
    by_mode dm Hd; run; reflexivity.
  - intros dm output color op lp kwargs r. subst r.
    assert (Hno : forall tr,
              forallb (fun e => negb (is_tool_output e)) tr = true ->
              forall before after_, tr <> before ++ response output ++ after_).
    { intros tr Hall before after_ Heq. subst tr.
      rewrite !forallb_app in Hall.
      apply andb_prop in Hall. destruct Hall as [_ Hall].
      apply andb_prop in Hall. destruct Hall as [Hall _].
      subst response. cbn [forallb] in Hall.
      apply andb_prop in Hall. destruct Hall as [_ Hall].
      apply andb_prop in Hall. destruct Hall as [Hall _].
      unfold is_tool_output in Hall.
      change (Color.UNDERLINE ++ Color.PURPLE ++ output ++ Color.END)%string
        with ((Color.UNDERLINE ++ Color.PURPLE) ++ (output ++ Color.END))%string in Hall.
      rewrite prefix_append in Hall. discriminate Hall. }
    unfold on_tool_end.
    cbn [negb orb existsb on_tool_end_locals String.eqb Ascii.eqb Bool.eqb].
    destruct (dict_get "run_id" kwargs) as [rid |] eqn:Hr;
      [| right; exists "run_id"; run;
         repeat split; [cbn; tauto | exact Hr | apply Hno; reflexivity]].
    destruct (dict_get "parent_run_id" kwargs) as [pid |] eqn:Hp;
      [| right; exists "parent_run_id"; run;
         repeat split; [cbn; tauto | exact Hp | apply Hno; reflexivity]].
    destruct (dict_get "name" kwargs) as [name |] eqn:Hn;
      [| right; exists "name"; run;
         repeat split; [cbn; tauto | exact Hn | apply Hno; reflexivity]].
    left. by_mode dm Hd; run; (split; [reflexivity |]).
    + exists ([Print (Color.BOLD ++ nl ++ nl ++ "> Received tool output." ++ Color.END)
                 nl]
              ++ key_info_labeled "Chain ID" (py_str rid) false
              ++ key_info_labeled "Parent chain ID" (py_str pid) false
              ++ key_info_labeled "Tool name" (py_str name) false),
        (debug_info_labeled "Arguments" (py_str (VDict kwargs)) false
         ++ debug_info_labeled "observation_prefix" (py_str (opt_str op)) false
         ++ debug_info_labeled "llm_prefix" (py_str (opt_str lp)) false).
      reflexivity.
    + exists ([Print (Color.BOLD ++ nl ++ nl ++ "> Received tool output." ++ Color.END)
                 nl]
              ++ key_info_labeled "Chain ID" (py_str rid) false
              ++ key_info_labeled "Parent chain ID" (py_str pid) false
              ++ key_info_labeled "Tool name" (py_str name) false), [].
      reflexivity.
Qed.

Lemma on_tool_end_warning_unreachable_witness :
  let kwargs := sample_kwargs ++ [("name", VStr "Search")] in
  dict_get "run_id" kwargs = Some (VObj "6f1c" "UUID('6f1c')")
  /\ dict_get "parent_run_id" kwargs = Some VNone
  /\ dict_get "name" kwargs = Some (VStr "Search")
  /\ on_tool_end "42" None None None kwargs (reporter (Some false))
     = ok (reporter (Some false))
         ([Print (Color.BOLD ++ nl ++ nl ++ "> Received tool output." ++ Color.END) nl;
           Print (Color.BOLD ++ Color.DARKCYAN ++ "Chain ID: " ++ Color.END
                  ++ Color.DARKCYAN) EmptyString;
           Cpprint "6f1c"; Print Color.END EmptyString;
           Print (Color.BOLD ++ Color.DARKCYAN ++ "Parent chain ID: " ++ Color.END
                  ++ Color.DARKCYAN) EmptyString;
           Cpprint "None"; Print Color.END EmptyString;
           Print (Color.BOLD ++ Color.DARKCYAN ++ "Tool name: " ++ Color.END
                  ++ Color.DARKCYAN) EmptyString;
           Cpprint "Search"; Print Color.END EmptyString;
           Print (Color.BOLD ++ Color.DARKCYAN ++ "Response from tool:" ++ Color.END) nl;
           Print (Color.UNDERLINE ++ Color.PURPLE ++ "42" ++ Color.END) nl])
         tt.
Proof.
  cbv zeta. repeat (split; [reflexivity |]).
  exact (proj1 (proj2 (proj2 on_tool_end_warning_unreachable)) (Some false) "42"
           None None None (sample_kwargs ++ [("name", VStr "Search")])
           (VObj "6f1c" "UUID('6f1c')") VNone (VStr "Search")
           eq_refl eq_refl eq_refl).
Defined.

(** *** The class name *)

(** C7: the class name taken from [serialized["id"]], in [on_chain_start]
    and [on_retriever_start], spelled out as console effects.  When the key
    is missing, the handler writes a bold red warning, in debug mode dumps
    [serialized] and enters the debugger, and writes the class line: the
    label "Chain class" (respectively "Retriever class") and the text
    "Unknown -- serialized['id'] is missing".  When the key holds a list of
    strings, the class line shows them joined with ".". *)
Theorem serialized_id_class_name :
  forall (dm : option bool) (serialized : dict),
    let line (codes text : string) := [Print (codes ++ text ++ Color.END) nl] in
    let labeled (colour label contents : string) :=
      [Print (Color.BOLD ++ colour ++ label ++ ": " ++ Color.END ++ colour) EmptyString;
       Cpprint contents; Print Color.END EmptyString] in
    let missing :=
      line (Color.BOLD ++ Color.RED)%string "Missing serialized['id']"
      ++ (if truthy dm then
            labeled Color.BLUE "serialized" (py_str (VDict serialized))
            ++ [Breakpoint]
          else []) in
    let retriever (query : string) (run_id parent_run_id : PyVal)
          (tags : option (list string)) (metadata : option dict) (kwargs : dict)
          (class_lines : list effect) :=
      ok (reporter dm)
        (line Color.BOLD (nl ++ nl ++ "> Querying retriever.")%string
         ++ labeled Color.DARKCYAN "Chain ID" (py_str run_id)
         ++ labeled Color.DARKCYAN "Parent chain ID" (py_str parent_run_id)
         ++ labeled Color.DARKCYAN "Tags" (py_str (opt_str_list tags))
         ++ class_lines
         ++ line (Color.BOLD ++ Color.DARKCYAN)%string "Query sent to retriever:"
         ++ line (Color.ITALICS ++ Color.PURPLE)%string query
         ++ (if truthy dm then
               labeled Color.BLUE "Arguments" (py_str (VDict kwargs))
               ++ labeled Color.BLUE "metadata" (py_str (opt_dict metadata))
               ++ labeled Color.BLUE "serialized" (py_str (VDict serialized))
             else []))
        tt in
    (dict_has "id" serialized = false ->
       (forall inputs kwargs : dict, exists rest,
          written (on_chain_start serialized inputs kwargs (reporter dm))
          = line Color.BOLD (nl ++ nl ++ "> Starting new chain.")%string
            ++ missing
            ++ labeled Color.DARKCYAN "Chain class"
                 "Unknown -- serialized['id'] is missing"
            ++ rest)
       /\ (forall query run_id parent_run_id tags metadata kwargs,
             on_retriever_start serialized query run_id parent_run_id tags metadata
               kwargs (reporter dm)
             = retriever query run_id parent_run_id tags metadata kwargs
                 (missing
                  ++ labeled Color.DARKCYAN "Retriever class"
                       "Unknown -- serialized['id'] is missing")))
    /\ (forall comps : list string,
          dict_get "id" serialized = Some (str_list comps) ->
          (forall inputs kwargs : dict, exists rest,
             written (on_chain_start serialized inputs kwargs (reporter dm))
             = line Color.BOLD (nl ++ nl ++ "> Starting new chain.")%string
               ++ labeled Color.DARKCYAN "Chain class" (String.concat "." comps)
               ++ rest)
          /\ (forall query run_id parent_run_id tags metadata kwargs,
                on_retriever_start serialized query run_id parent_run_id tags metadata
                  kwargs (reporter dm)
                = retriever query run_id parent_run_id tags metadata kwargs
                    (labeled Color.DARKCYAN "Retriever class"
                       (String.concat "." comps))))
    /\ (dict_has "id" serialized = false ->
        (forall inputs kwargs : dict,
           output_contains "Unknown"
             (written (on_chain_start serialized inputs kwargs (reporter dm))) = true)
        /\ (forall query run_id parent_run_id tags metadata kwargs,
              output_contains "Unknown"
                (written (on_retriever_start serialized query run_id parent_run_id
                            tags metadata kwargs (reporter dm))) = true))
    /\ existsb is_warning (line (Color.BOLD ++ Color.RED)%string "Missing serialized['id']")
       = true
    /\ contains "Unknown" "Unknown -- serialized['id'] is missing" = true.
Proof.
  intros dm serialized line labeled missing retriever.
  subst missing retriever line labeled.
  assert (Hun : forall (c_label : string) (a b c : list effect),
            output_contains "Unknown"
              (a ++ b
               ++ [Print (Color.BOLD ++ Color.DARKCYAN ++ c_label ++ ": " ++ Color.END
                          ++ Color.DARKCYAN) EmptyString;
                   Cpprint "Unknown -- serialized['id'] is missing";
                   Print Color.END EmptyString]
               ++ c) = true).
  { intros c_label a b c. rewrite !output_contains_app.
    replace (output_contains "Unknown"
               [Print (Color.BOLD ++ Color.DARKCYAN ++ c_label ++ ": " ++ Color.END
                       ++ Color.DARKCYAN) EmptyString;
                Cpprint "Unknown -- serialized['id'] is missing";
                Print Color.END EmptyString]) with true.
    - rewrite orb_true_l, !orb_true_r. reflexivity.
    - unfold output_contains. cbn [existsb shown].
      replace (contains "Unknown" "Unknown -- serialized['id'] is missing")
        with true by reflexivity.
      rewrite orb_true_l, orb_true_r. reflexivity. }
  split; [| split; [| split; [| split; reflexivity]]].
  3:{ intro Hid. split.
      - intros inputs kwargs. unfold on_chain_start. rewrite Hid. cbn [negb].
        by_mode dm Hd; run.
        + apply (Hun "Chain class"
                   ([Print (Color.BOLD ++ nl ++ nl ++ "> Starting new chain."
                            ++ Color.END) nl]
                    ++ [Print (Color.BOLD ++ Color.RED ++ "Missing serialized['id']"
                               ++ Color.END) nl])
                   (debug_info_labeled "serialized" (py_str (VDict serialized)) false
                    ++ [Breakpoint])).
        + apply (Hun "Chain class"
                   [Print (Color.BOLD ++ nl ++ nl ++ "> Starting new chain."
                           ++ Color.END) nl]
                   [Print (Color.BOLD ++ Color.RED ++ "Missing serialized['id']"
                           ++ Color.END) nl]).
      - intros. unfold on_retriever_start. rewrite Hid. cbn [negb].
        by_mode dm Hd; run.
        + apply (Hun "Retriever class"
                   ([Print (Color.BOLD ++ nl ++ nl ++ "> Querying retriever."
                            ++ Color.END) nl]
                    ++ key_info_labeled "Chain ID" (py_str run_id) false
                    ++ key_info_labeled "Parent chain ID" (py_str parent_run_id) false
                    ++ key_info_labeled "Tags" (py_str (opt_str_list tags)) false
                    ++ [Print (Color.BOLD ++ Color.RED ++ "Missing serialized['id']"
                               ++ Color.END) nl])
                   (debug_info_labeled "serialized" (py_str (VDict serialized)) false
                    ++ [Breakpoint])).
        + apply (Hun "Retriever class"
                   ([Print (Color.BOLD ++ nl ++ nl ++ "> Querying retriever."
                            ++ Color.END) nl]
                    ++ key_info_labeled "Chain ID" (py_str run_id) false
                    ++ key_info_labeled "Parent chain ID" (py_str parent_run_id) false
                    ++ key_info_labeled "Tags" (py_str (opt_str_list tags)) false)
                   [Print (Color.BOLD ++ Color.RED ++ "Missing serialized['id']"
                           ++ Color.END) nl]). }
  - intro Hid. split.
    + intros inputs kwargs. unfold on_chain_start. rewrite Hid. cbn [negb].
      by_mode dm Hd; run; eexists; reflexivity.
    + intros. unfold on_retriever_start. rewrite Hid. cbn [negb].
      by_mode dm Hd; run; reflexivity.
  - intros comps Hid. pose proof (dict_get_has _ _ Hid) as Hhas. split.
    + intros inputs kwargs. unfold on_chain_start. rewrite Hhas. cbn [negb].
      run. erewrite bind_getitem by exact Hid. rewrite bind_join_str_list.
      run. eexists; reflexivity.
    + intros. unfold on_retriever_start. rewrite Hhas. cbn [negb].
      run. erewrite bind_getitem by exact Hid. rewrite bind_join_str_list.
      by_mode dm Hd; run; reflexivity.
Qed.

Lemma serialized_id_class_name_witness :
  let serialized := [("id", str_list ["langchain"; "chains"; "llm"; "LLMChain"])] in
  dict_has "id" [] = false
  /\ dict_get "id" serialized
     = Some (str_list ["langchain"; "chains"; "llm"; "LLMChain"])
  /\ (exists rest,
        written (on_chain_start [] [] [] (reporter (Some true)))
        = [Print (Color.BOLD ++ nl ++ nl ++ "> Starting new chain." ++ Color.END) nl;
           Print (Color.BOLD ++ Color.RED ++ "Missing serialized['id']" ++ Color.END) nl;
           Print (Color.BOLD ++ Color.BLUE ++ "serialized: " ++ Color.END ++ Color.BLUE)
             EmptyString;
           Cpprint "{}"; Print Color.END EmptyString;
           Breakpoint;
           Print (Color.BOLD ++ Color.DARKCYAN ++ "Chain class: " ++ Color.END
                  ++ Color.DARKCYAN) EmptyString;
           Cpprint "Unknown -- serialized['id'] is missing";
           Print Color.END EmptyString]
          ++ rest)
  /\ (exists rest,
        written (on_chain_start serialized [] [] (reporter (Some false)))
        = [Print (Color.BOLD ++ nl ++ nl ++ "> Starting new chain." ++ Color.END) nl;
           Print (Color.BOLD ++ Color.DARKCYAN ++ "Chain class: " ++ Color.END
                  ++ Color.DARKCYAN) EmptyString;
           Cpprint "langchain.chains.llm.LLMChain";
           Print Color.END EmptyString]
          ++ rest).
Proof.
  cbv zeta. split; [reflexivity | split; [reflexivity | split]].
  - exact (proj1 (proj1 (serialized_id_class_name (Some true) []) eq_refl) [] []).
  - exact (proj1 (proj1 (proj2 (serialized_id_class_name (Some false)
             [("id", str_list ["langchain"; "chains"; "llm"; "LLMChain"])]))
             ["langchain"; "chains"; "llm"; "LLMChain"] eq_refl) [] []).
Defined.

(** *** The listing of the chain inputs *)

Lemma length_append_str (a b : string) :
  String.length (a ++ b) = String.length a + String.length b.
Proof. induction a as [| c a IH]; cbn; [reflexivity | rewrite IH; reflexivity]. Qed.

Lemma append_cancel_r (a b c : string) : (a ++ c)%string = (b ++ c)%string -> a = b.
Proof.
  revert b. induction a as [| x a IH]; intros [| y b] H; cbn in H.
  - reflexivity.
  - apply (f_equal String.length) in H. cbn in H. rewrite length_append_str in H. lia.
  - apply (f_equal String.length) in H. cbn in H. rewrite length_append_str in H. lia.
  - injection H as -> H. f_equal. exact (IH b H).
Qed.

Lemma append_cancel_l (p a b : string) : (p ++ a)%string = (p ++ b)%string -> a = b.
Proof.
  induction p as [| x p IH]; cbn; intro H; [exact H |].
  injection H as H. exact (IH H).
Qed.

Lemma is_input_label_other k k' e :
  k <> k' ->
  is_input_label k'
    (Print (Color.BOLD ++ Color.DARKCYAN ++ ("   " ++ k) ++ ": " ++ Color.END
            ++ Color.DARKCYAN) e) = false.
Proof.
  intro Hne. unfold is_input_label.
  apply andb_false_intro1. apply String.eqb_neq. intro H. apply Hne.
  change (Color.BOLD ++ Color.DARKCYAN ++ ("   " ++ k) ++ ": " ++ Color.END
          ++ Color.DARKCYAN)%string
    with ((Color.BOLD ++ Color.DARKCYAN ++ "   ")
          ++ (k ++ (": " ++ Color.END ++ Color.DARKCYAN)))%string in H.
  change (Color.BOLD ++ Color.DARKCYAN ++ ("   " ++ k') ++ ": " ++ Color.END
          ++ Color.DARKCYAN)%string
    with ((Color.BOLD ++ Color.DARKCYAN ++ "   ")
          ++ (k' ++ (": " ++ Color.END ++ Color.DARKCYAN)))%string in H.
  apply append_cancel_l in H. apply append_cancel_r in H. exact H.
Qed.

Lemma input_lines_skip k (inputs : dict) :
  (k = "stop" \/ k = "agent_scratchpad") ->
  forallb (fun e => negb (is_input_label k e))
    (flat_map input_line (filter listed inputs)) = true.
Proof.
  intro Hk. induction inputs as [| [k' v] r IH]; [reflexivity |].
  cbn [filter]. destruct (listed (k', v)) eqn:Hl; [| exact IH].
  cbn [flat_map]. rewrite forallb_app, IH, andb_true_r.
  apply listed_iff in Hl. destruct Hl as [Hs Ha].
  unfold input_line, key_info_labeled. cbn [fst snd forallb].
  rewrite is_input_label_other by (destruct Hk; subst; assumption).
  reflexivity.
Qed.

(** C5: the listing of the chain inputs in [on_chain_start], for a payload
    that carries the identifiers, has at least one input and a class name
    that can be joined.  The call returns.  After the bold line "Iterating
    through keys/values of chain inputs:" the handler writes, for each
    binding of [inputs] in order, except exactly those with key "stop" or
    "agent_scratchpad", the label of the key followed by the value; then
    come the debug dumps, if any.  So every binding with another key has its
    key and value on the console, and the label of "stop" or of
    "agent_scratchpad" is nowhere in the output. *)
Theorem on_chain_start_lists_inputs :
  forall (dm : option bool) (serialized inputs kwargs : dict) (rid pid : PyVal),
    dict_get "run_id" kwargs = Some rid ->
    dict_get "parent_run_id" kwargs = Some pid ->
    inputs <> [] ->
    (forall v, dict_get "id" serialized = Some v -> iter_strs v <> None) ->
    let r := on_chain_start serialized inputs kwargs (reporter dm) in
    let label (key : string) :=
      Print (Color.BOLD ++ Color.DARKCYAN ++ ("   " ++ key) ++ ": " ++ Color.END
             ++ Color.DARKCYAN) EmptyString in
    let entry (kv : string * PyVal) :=
      [label (fst kv); Cpprint (py_str (snd kv)); Print Color.END EmptyString] in
    outcome r = inr tt
    /\ (exists before,
          written r
          = before
            ++ [Print (Color.BOLD ++ Color.DARKCYAN
                       ++ "Iterating through keys/values of chain inputs:"
                       ++ Color.END) nl]
            ++ flat_map entry (filter listed inputs)
            ++ (if truthy dm then
                  debug_info_labeled "Arguments" (py_str (VDict kwargs)) false
                  ++ debug_info_labeled "inputs" (py_str (VDict inputs)) false
                  ++ debug_info_labeled "serialized" (py_str (VDict serialized)) false
                else []))
    /\ (forall k v,
          In (k, v) (filter listed inputs)
          <-> In (k, v) inputs /\ k <> "stop" /\ k <> "agent_scratchpad")
    /\ (forall k v,
          In (k, v) inputs -> k <> "stop" -> k <> "agent_scratchpad" ->
          exists before after_, written r = before ++ entry (k, v) ++ after_)
    /\ (forall k,
          k = "stop" \/ k = "agent_scratchpad" -> ~ In (label k) (written r)).
Proof.
  intros dm serialized inputs kwargs rid pid Hr Hp Hne Hid r label entry.
  assert (Hrun : exists before,
    forallb (fun e => negb (is_input_label "stop" e)) before = true
    /\ forallb (fun e => negb (is_input_label "agent_scratchpad" e)) before = true
    /\ r = ok (reporter dm)
          (before
           ++ key_info "Iterating through keys/values of chain inputs:"
           ++ flat_map input_line (filter listed inputs)
           ++ (if truthy dm then
                 debug_info_labeled "Arguments" (py_str (VDict kwargs)) false
                 ++ debug_info_labeled "inputs" (py_str (VDict inputs)) false
                 ++ debug_info_labeled "serialized" (py_str (VDict serialized)) false
               else [])) tt).
  { subst r. unfold on_chain_start.
    assert (Hlen : (length inputs <? 1)%nat = false)
      by (destruct inputs; [contradiction | reflexivity]).
    rewrite Hlen.
    destruct (dict_has "id" serialized) eqn:Hhas; cbn [negb].
    - destruct (dict_has_get _ _ Hhas) as [v Hv].
      destruct (iter_strs v) as [comps |] eqn:Hcomps;
        [| exfalso; exact (Hid v Hv Hcomps)].
      run. erewrite bind_getitem by exact Hv.
      unfold join. rewrite Hcomps.
      exists (heading (nl ++ nl ++ "> Starting new chain.")
              ++ key_info_labeled "Chain class" (String.concat "." comps) false
              ++ key_info_labeled "Chain ID" (py_str rid) false
              ++ key_info_labeled "Parent chain ID" (py_str pid) false).
      split; [reflexivity | split; [reflexivity |]].
      by_mode dm Hd; run;
        (erewrite bind_ok by apply run_input_lines); run; reflexivity.
    - exists (heading (nl ++ nl ++ "> Starting new chain.")
              ++ debug_error "Missing serialized['id']"
              ++ (if truthy dm then
                    debug_info_labeled "serialized" (py_str (VDict serialized)) false
                    ++ [Breakpoint]
                  else [])
              ++ key_info_labeled "Chain class"
                   "Unknown -- serialized['id'] is missing" false
              ++ key_info_labeled "Chain ID" (py_str rid) false
              ++ key_info_labeled "Parent chain ID" (py_str pid) false).
      by_mode dm Hd; (split; [reflexivity | split; [reflexivity |]]); run;
        (erewrite bind_ok by apply run_input_lines); run; reflexivity. }
  destruct Hrun as (before & Hb1 & Hb2 & Hrun). rewrite Hrun.
  split; [reflexivity |]. split; [exists before; reflexivity |].
  split; [intros k v; rewrite filter_In, listed_iff; reflexivity |].
  unfold ok; cbn [written]. split.
  - intros k v Hin Hs Ha.
    assert (Hl : In (k, v) (filter listed inputs)).
    { apply filter_In. split; [exact Hin |]. apply listed_iff. split; assumption. }
    apply in_split in Hl. destruct Hl as (l1 & l2 & Hl). rewrite Hl.
    rewrite flat_map_app. cbn [flat_map].
    exists (before ++ key_info "Iterating through keys/values of chain inputs:"
            ++ flat_map input_line l1).
    exists (flat_map input_line l2
            ++ (if truthy dm then
                  debug_info_labeled "Arguments" (py_str (VDict kwargs)) false
                  ++ debug_info_labeled "inputs" (py_str (VDict inputs)) false
                  ++ debug_info_labeled "serialized" (py_str (VDict serialized)) false
                else [])).
    rewrite <- !app_assoc. reflexivity.
  - intros k Hk.
    apply (not_In_forallb (is_input_label k)).
    + subst label. unfold is_input_label. rewrite !String.eqb_refl. reflexivity.
    + rewrite !forallb_app.
      rewrite (input_lines_skip k inputs Hk).
      destruct Hk as [-> | ->]; rewrite ?Hb1, ?Hb2;
        destruct (truthy dm); reflexivity.
Qed.

Lemma on_chain_start_lists_inputs_witness :
  let inputs := [("food", VStr "chocolate"); ("stop", VNone); ("n", VInt 3)] in
  let r := on_chain_start [] inputs sample_kwargs (reporter (Some false)) in
  dict_get "run_id" sample_kwargs = Some (VObj "6f1c" "UUID('6f1c')")
  /\ dict_get "parent_run_id" sample_kwargs = Some VNone
  /\ inputs <> []
  /\ filter listed inputs = [("food", VStr "chocolate"); ("n", VInt 3)]
  /\ outcome r = inr tt
  /\ ~ In (Print (Color.BOLD ++ Color.DARKCYAN ++ ("   " ++ "stop") ++ ": "
                  ++ Color.END ++ Color.DARKCYAN) EmptyString) (written r).
Proof.
  cbv zeta. split; [reflexivity | split; [reflexivity | split; [discriminate |]]].
  split; [reflexivity |].
  pose proof (on_chain_start_lists_inputs (Some false) []
                [("food", VStr "chocolate"); ("stop", VNone); ("n", VInt 3)]
                sample_kwargs (VObj "6f1c" "UUID('6f1c')") VNone
                eq_refl eq_refl (fun H => ltac:(discriminate H))
                (fun v H => ltac:(discriminate H))) as H.
  cbv zeta in H. destruct H as (H1 & _ & _ & _ & H5).
  split; [exact H1 | exact (H5 "stop" (or_introl eq_refl))].
Defined.

(** *** Heading and identifiers, effect by effect *)

Lemma filter_no_heading tr : no_heading tr = true -> filter is_heading tr = [].
Proof.
  unfold no_heading, not_heading. induction tr as [| e r IH]; [reflexivity |].
  cbn [forallb filter]. intro H. apply andb_prop in H. destruct H as [He Hr].
  destruct (is_heading e); [discriminate He | exact (IH Hr)].
Qed.

Lemma leads_title_is_heading ev title rid pid :
  leads ev = Some (title, rid, pid) ->
  is_heading (Print (Color.BOLD ++ nl ++ nl ++ title ++ Color.END) nl) = true.
Proof.
  destruct ev; cbn [leads]; intro H; try discriminate H;
    try (apply ids_in_some in H; destruct H as (r & p & _ & _ & -> & _));
    try (injection H as <- _ _); reflexivity.
Qed.

(** C2 (amended): which handlers open with heading and identifiers, spelled
    out as console effects.
    - [on_llm_start], [on_llm_end], [on_chain_end], [on_tool_start],
      [on_tool_end], [on_agent_action], [on_agent_finish],
      [on_retriever_start], [on_retriever_end], on a payload that carries
      the two identifiers: the output starts with the bold heading of the
      event kind, then the run identifier line, then the parent identifier
      line; the heading is a heading line and the only one.
    - [on_chain_start], when [serialized["id"]] is missing or can be joined:
      the heading, then the class line (after a warning, and in debug mode a
      dump and a stop in the debugger, when the key is missing), and only
      then the identifier lines; no later heading.
    - [on_text]: heading, identifiers, arguments and the text in debug mode,
      nothing otherwise.
    - the three error handlers: the bold red error line and the error
      object, no identifiers. *)
Theorem heading_then_identifiers :
  forall dm : option bool,
    let line (codes text : string) := [Print (codes ++ text ++ Color.END) nl] in
    let labeled (colour label contents : string) :=
      [Print (Color.BOLD ++ colour ++ label ++ ": " ++ Color.END ++ colour) EmptyString;
       Cpprint contents; Print Color.END EmptyString] in
    (forall ev title rid pid,
       leads ev = Some (title, rid, pid) ->
       exists rest,
         written (handle ev (reporter dm))
         = line Color.BOLD (nl ++ nl ++ title)%string
           ++ labeled Color.DARKCYAN "Chain ID" rid
           ++ labeled Color.DARKCYAN "Parent chain ID" pid
           ++ rest
         /\ no_heading rest = true
         /\ existsb is_heading (line Color.BOLD (nl ++ nl ++ title)%string) = true
         /\ length (filter is_heading (written (handle ev (reporter dm)))) = 1)
    /\ (forall serialized inputs kwargs rid pid,
          dict_get "run_id" kwargs = Some rid ->
          dict_get "parent_run_id" kwargs = Some pid ->
          let r := handle (ChainStart serialized inputs kwargs) (reporter dm) in
          let ids :=
            labeled Color.DARKCYAN "Chain ID" (py_str rid)
            ++ labeled Color.DARKCYAN "Parent chain ID" (py_str pid) in
          (dict_has "id" serialized = false ->
           exists rest,
             written r
             = line Color.BOLD (nl ++ nl ++ "> Starting new chain.")%string
               ++ line (Color.BOLD ++ Color.RED)%string "Missing serialized['id']"
               ++ (if truthy dm then
                     labeled Color.BLUE "serialized" (py_str (VDict serialized))
                     ++ [Breakpoint]
                   else [])
               ++ labeled Color.DARKCYAN "Chain class"
                    "Unknown -- serialized['id'] is missing"
               ++ ids ++ rest
             /\ no_heading rest = true)
          /\ (forall v comps,
                dict_get "id" serialized = Some v ->
                iter_strs v = Some comps ->
                exists rest,
                  written r
                  = line Color.BOLD (nl ++ nl ++ "> Starting new chain.")%string
                    ++ labeled Color.DARKCYAN "Chain class" (String.concat "." comps)
                    ++ ids ++ rest
                  /\ no_heading rest = true))
    /\ (forall text color end_ kwargs rid pid,
          dict_get "run_id" kwargs = Some rid ->
          dict_get "parent_run_id" kwargs = Some pid ->
          handle (Text text color end_ kwargs) (reporter dm)
          = ok (reporter dm)
              (if truthy dm then
                 line Color.BOLD (nl ++ nl ++ "> Preparing text.")%string
                 ++ labeled Color.BLUE "Chain ID" (py_str rid)
                 ++ labeled Color.BLUE "Parent chain ID" (py_str pid)
                 ++ labeled Color.BLUE "Arguments" (py_str (VDict kwargs))
                 ++ [Print text nl]
               else [])
              tt)
    /\ (forall error kwargs,
          let report (title : string) :=
            ok (reporter dm)
              (line (Color.BOLD ++ Color.RED)%string title
               ++ labeled Color.BLUE "Error object" (py_str error)
               ++ (if truthy dm then [Breakpoint] else []))
              tt in
          handle (LlmError error kwargs) (reporter dm) = report "LLM Error"
          /\ handle (ChainError error kwargs) (reporter dm) = report "Chain Error"
          /\ handle (ToolError error kwargs) (reporter dm) = report "Chain Error").
Proof.
  intros dm line labeled. subst line labeled. split; [| split; [| split]].
  - intros ev title rid pid Hl.
    destruct (leads_with_identifiers dm ev title rid pid Hl) as (rest & Hw & Hrest).
    pose proof (leads_title_is_heading ev title rid pid Hl) as Hh.
    exists rest. split; [exact Hw | split; [exact Hrest |]].
    split; [cbn [existsb]; apply orb_true_iff; left; exact Hh |].
    rewrite Hw.
    change (length (filter is_heading
                      (Print (Color.BOLD ++ nl ++ nl ++ title ++ Color.END) nl
                       :: (key_info_labeled "Chain ID" rid false
                           ++ key_info_labeled "Parent chain ID" pid false
                           ++ rest))) = 1).
    cbn [filter]. rewrite Hh.
    rewrite (filter_no_heading
               (key_info_labeled "Chain ID" rid false
                ++ key_info_labeled "Parent chain ID" pid false ++ rest));
      [reflexivity |].
    unfold no_heading. rewrite !forallb_app. fold (no_heading rest).
    rewrite Hrest. reflexivity.
  - intros serialized inputs kwargs rid pid Hr Hp r ids. subst r ids.
    cbn [handle]. unfold on_chain_start. split.
    + intro Hhas. rewrite Hhas. cbn [negb].
      by_mode dm Hd; run; (eexists; split; [reflexivity |]);
        match goal with
        | |- no_heading (written (?m ?s)) = true => change (writes not_heading m s)
        end;
        repeat quiet_step'.
    + intros v comps Hv Hc. rewrite (dict_get_has _ _ Hv). cbn [negb].
      run. erewrite bind_getitem by exact Hv. unfold join. rewrite Hc. run.
      (eexists; split; [reflexivity |]);
        match goal with
        | |- no_heading (written (?m ?s)) = true => change (writes not_heading m s)
        end;
        repeat quiet_step'.
  - intros text color end_ kwargs rid pid Hr Hp.
    cbn [handle]. unfold on_text. by_mode dm Hd; run; reflexivity.
  - intros error kwargs report. subst report. cbn [handle].
    unfold on_llm_error, on_chain_error, on_tool_error.
    by_mode dm Hd; run; repeat split.
Qed.

Lemma heading_then_identifiers_witness :
  let ev := ToolStart [("name", VStr "Search")] "weather" sample_kwargs in
  leads ev = Some ("> Using tool.", "6f1c", "None")
  /\ exists rest,
       written (handle ev (reporter (Some false)))
       = [Print (Color.BOLD ++ nl ++ nl ++ "> Using tool." ++ Color.END) nl;
          Print (Color.BOLD ++ Color.DARKCYAN ++ "Chain ID: " ++ Color.END
                 ++ Color.DARKCYAN) EmptyString;
          Cpprint "6f1c"; Print Color.END EmptyString;
          Print (Color.BOLD ++ Color.DARKCYAN ++ "Parent chain ID: " ++ Color.END
                 ++ Color.DARKCYAN) EmptyString;
          Cpprint "None"; Print Color.END EmptyString]
         ++ rest
       /\ no_heading rest = true
       /\ existsb is_heading
            [Print (Color.BOLD ++ nl ++ nl ++ "> Using tool." ++ Color.END) nl] = true
       /\ length (filter is_heading (written (handle ev (reporter (Some false))))) = 1.
Proof.
  cbv zeta. split; [reflexivity |].
  exact (proj1 (heading_then_identifiers (Some false))
           (ToolStart [("name", VStr "Search")] "weather" sample_kwargs)
           "> Using tool." "6f1c" "None" eq_refl).
Defined.

(** *** Calls leave the reporter as the constructor made it *)

Lemma delivered_same evs self : delivered evs self = self.
Proof.
  unfold delivered. revert self.
  induction evs as [| ev rest IH]; intro self; [reflexivity |].
  cbn [fold_left]. rewrite frame_handle. apply IH.
Qed.

Lemma transcript_map evs self :
  transcript evs self
  = map (fun ev => (written (handle ev self), outcome (handle ev self))) evs.
Proof.
  revert self. induction evs as [| ev rest IH]; intro self; [reflexivity |].
  cbn [transcript map]. rewrite frame_handle. rewrite IH. reflexivity.
Qed.

(** C8: a handler called twice on the same reporter with the same payload
    writes the same and ends the same both times, and neither call changes
    the reporter's [debug_mode] or [out].  The same holds over the life of
    the reporter: after any sequence of calls it is the object the
    constructor made, and what a call writes does not depend on the calls
    before it.  The two fields can be assigned, [__init__] does so, and they
    decide what is written; a call that assigned the flag would write
    something else the second time. *)
Theorem handlers_idempotent :
  (forall (self : AllChainDetails) (ev : event),
     let r1 := handle ev self in
     let r2 := handle ev (self_after r1) in
     written r2 = written r1
     /\ outcome r2 = outcome r1
     /\ debug_mode (self_after r1) = debug_mode self
     /\ out (self_after r1) = out self
     /\ debug_mode (self_after r2) = debug_mode self
     /\ out (self_after r2) = out self)
  /\ (forall ev : event, idempotent (handle ev))
  /\ (forall (self : AllChainDetails) (evs : list event),
        delivered evs self = self
        /\ transcript evs self
           = map (fun ev => (written (handle ev self), outcome (handle ev self))) evs
        /\ transcript (evs ++ evs) self = transcript evs self ++ transcript evs self)
  /\ (forall (dm : option bool) (sink : Formatter) (self : AllChainDetails),
        init dm sink self = ok (__init__ dm sink) [] tt)
  /\ (forall (error : PyVal) (kwargs : dict),
        let ev := LlmError error kwargs in
        let line (codes text : string) := [Print (codes ++ text ++ Color.END) nl] in
        let labeled (colour label contents : string) :=
          [Print (Color.BOLD ++ colour ++ label ++ ": " ++ Color.END ++ colour) EmptyString;
           Cpprint contents; Print Color.END EmptyString] in
        let report :=
          line (Color.BOLD ++ Color.RED)%string "LLM Error"
          ++ labeled Color.BLUE "Error object" (py_str error) in
        let careless := bind (handle ev) (fun _ => setattr_debug_mode (Some true)) in
        written (handle ev (reporter (Some false))) = report
        /\ written (handle ev (reporter (Some true))) = report ++ [Breakpoint]
        /\ written (careless (reporter (Some false))) = report
        /\ written (careless (self_after (careless (reporter (Some false)))))
           = report ++ [Breakpoint]
        /\ ~ idempotent careless).
Proof.
  split; [| split; [| split; [| split]]].
  - intros self ev r1 r2. subst r2 r1.
    rewrite !frame_handle. repeat split.
  - intros ev self. rewrite !frame_handle. split; reflexivity.
  - intros self evs. split; [apply delivered_same |].
    split; [apply transcript_map |].
    rewrite !transcript_map. apply map_app.
  - intros dm sink self. reflexivity.
  - intros error kwargs ev line labeled report careless.
    subst ev line labeled report careless.
    assert (H1 : written (handle (LlmError error kwargs) (reporter (Some false)))
                 = debug_error "LLM Error"
                   ++ debug_info_labeled "Error object" (py_str error) false).
    { cbn [handle]. unfold on_llm_error. run. reflexivity. }
    assert (H2 : written (handle (LlmError error kwargs) (reporter (Some true)))
                 = (debug_error "LLM Error"
                    ++ debug_info_labeled "Error object" (py_str error) false)
                   ++ [Breakpoint]).
    { cbn [handle]. unfold on_llm_error. run. reflexivity. }
    assert (H3 : forall self,
               bind (handle (LlmError error kwargs))
                 (fun _ => setattr_debug_mode (Some true)) self
               = ok {| debug_mode := Some true; out := out self |}
                   (written (handle (LlmError error kwargs) self))
                   tt
               \/ exists e, outcome (handle (LlmError error kwargs) self) = inl e).
    { intro self. unfold bind at 1.
      pose proof (frame_handle (LlmError error kwargs) self) as Hf.
      destruct (handle (LlmError error kwargs) self) as [s w [e | []]];
        cbn [outcome self_after written] in *.
      - right. exists e. reflexivity.
      - left. subst s. unfold ok, setattr_debug_mode.
        cbn [outcome self_after written out]. rewrite app_nil_r. reflexivity. }
    assert (O1 : forall dm,
               outcome (handle (LlmError error kwargs) (reporter dm)) = inr tt).
    { intro dm. cbn [handle]. unfold on_llm_error. by_mode dm Hd; run; reflexivity. }
    assert (C1 : bind (handle (LlmError error kwargs))
                   (fun _ => setattr_debug_mode (Some true)) (reporter (Some false))
                 = ok (reporter (Some true))
                     (written (handle (LlmError error kwargs) (reporter (Some false))))
                     tt).
    { destruct (H3 (reporter (Some false))) as [H | [e He]]; [exact H |].
      rewrite O1 in He. discriminate He. }
    assert (C2 : bind (handle (LlmError error kwargs))
                   (fun _ => setattr_debug_mode (Some true)) (reporter (Some true))
                 = ok (reporter (Some true))
                     (written (handle (LlmError error kwargs) (reporter (Some true))))
                     tt).
    { destruct (H3 (reporter (Some true))) as [H | [e He]]; [exact H |].
      rewrite O1 in He. discriminate He. }
    split; [exact H1 | split; [exact H2 |]].
    split; [rewrite C1; exact H1 |].
    split; [rewrite C1; cbn [self_after ok]; rewrite C2; exact H2 |].
    intro Hi. destruct (Hi (reporter (Some false))) as [Hw _].
    rewrite C1 in Hw. cbn [self_after ok written] in Hw.
    rewrite C2 in Hw. cbn [ok written] in Hw.
    rewrite H1, H2 in Hw.
    apply (f_equal (@length effect)) in Hw.
    rewrite length_app in Hw. cbn [length] in Hw. lia.
Qed.
